(** * solarshowdown-api: the energy-metrics handler of [main.go]

    A shallow embedding of [main.go] and the properties of its
    configuration loader, its time-window resolver, its store queries,
    its aggregation formulas and its HTTP handler.

    The program is one Go file.  It reads the wall clock ([time.Now]),
    builds calendar instants with the Go standard library ([time.Date],
    [Time.AddDate], [Time.UTC]) and sends Flux queries to an InfluxDB
    server.  The two libraries are not part of the program; they are
    modelled here as far as the program uses them:

    - package [time] as a proleptic Gregorian calendar over [Z], with zone
      tables as in Go's [Location] (module [GoTime]);
    - the InfluxDB client as an oracle that answers each query with either a
      transport error or a table of dynamically typed rows (module [Influx]).

    [float64] is Rocq's primitive binary64 float, so sums and quotients are
    the IEEE ones of the program (up to the payload of a NaN, which Rocq
    does not keep).  Go's [int] and [int64] are 64 bits wide; the calendar
    arithmetic of an instant that [time.Now] can return stays far inside
    that range, and is done here in [Z]. *)

From Stdlib Require Import ZArith List String Ascii Bool Lia Floats.PrimFloat.
Import ListNotations.

Open Scope string_scope.
Open Scope Z_scope.

(* ================================================================== *)
(** * Package [time] of the Go standard library (model) *)
(* ================================================================== *)

Module GoTime.

(** ** Zones

    A [Location] is a table of zone transitions.  Before the first
    transition [firstOffset] is in force; from [when] on, [offset] is.
    Offsets are seconds east of UTC, [when] is in Unix seconds, and the
    table is sorted by [when].  (The rule that Go applies past the last
    transition of a table is left out: a table is taken to reach as far
    as it is used.) *)

Record zoneTrans := mkZoneTrans { when : Z; offset : Z }.

Record Location := mkLocation { firstOffset : Z; tx : list zoneTrans }.

Definition UTC : Location := {| firstOffset := 0; tx := [] |}.

Definition FixedZone (off : Z) : Location := {| firstOffset := off; tx := [] |}.

(** [alpha] and [omega] are the beginning and the end of time of Go's
    zone lookup ([math.MinInt64] and [math.MaxInt64]). *)
Definition alpha : Z := - 2 ^ 63.
Definition omega : Z := 2 ^ 63 - 1.

Fixpoint lookupTx (cur : zoneTrans) (rest : list zoneTrans) (sec : Z) : Z * Z * Z :=
  match rest with
  | [] => (offset cur, when cur, omega)
  | nxt :: rest' =>
      if sec <? when nxt then (offset cur, when cur, when nxt)
      else lookupTx nxt rest' sec
  end.

(** [Location.lookup]: the offset in force at Unix time [sec] and the
    half-open interval [start, end) of instants over which it is. *)
Definition lookup (l : Location) (sec : Z) : Z * Z * Z :=
  match tx l with
  | [] => (firstOffset l, alpha, omega)
  | t0 :: rest =>
      if sec <? when t0 then (firstOffset l, alpha, when t0)
      else lookupTx t0 rest sec
  end.

(** The offset in force at Unix time [sec]. *)
Definition offsetAt (l : Location) (sec : Z) : Z := fst (fst (lookup l sec)).

(** All the offsets a zone uses. *)
Definition zoneOffsets (l : Location) : list Z :=
  firstOffset l :: map offset (tx l).

(** ** Instants

    A [Time] is an instant, in nanoseconds since the Unix epoch, with the
    location it is displayed in. *)

Record Time := mkTime { instant : Z; loc : Location }.

Definition nanosPerSecond : Z := 1000000000.
Definition secondsPerMinute : Z := 60.
Definition secondsPerHour : Z := 3600.
Definition secondsPerDay : Z := 86400.

Definition unixSec (t : Time) : Z := instant t / nanosPerSecond.
Definition nsec (t : Time) : Z := instant t mod nanosPerSecond.

(** The zero [Time{}]: January 1, year 1, 00:00:00 UTC. *)
Definition zeroTime : Time :=
  {| instant := -62135596800 * nanosPerSecond; loc := UTC |}.

(** [t.abs()]: the seconds shown by a clock of [t]'s location, counted
    from 1970-01-01 00:00:00 of that clock.  (Go counts them from an
    earlier year to stay unsigned; [Z] has no need for that.) *)
Definition abs (t : Time) : Z :=
  let sec := unixSec t in
  let '(off, _, _) := lookup (loc t) sec in
  sec + off.

(** ** The calendar *)

Definition daysPer400Years : Z := 146097.
Definition daysPer100Years : Z := 36524.
Definition daysPer4Years : Z := 1461.

(** Days from January 1 of year 1 to January 1 of 1970. *)
Definition year1ToUnixDays : Z := 719162.

Definition isLeap (year : Z) : bool :=
  (Z.rem year 4 =? 0) && (negb (Z.rem year 100 =? 0) || (Z.rem year 400 =? 0)).

(** [daysBefore m] is the number of days of a non-leap year before month
    [m + 1] starts. *)
Definition daysBefore (m : Z) : Z :=
  nth (Z.to_nat m) [0; 31; 59; 90; 120; 151; 181; 212; 243; 273; 304; 334; 365] 0.

(** Days from 1970-01-01 to January 1 of [year]. *)
Definition daysSinceEpoch (year : Z) : Z :=
  let y := year - 1 in
  let n := y / 400 in
  let y := y - 400 * n in
  let d := daysPer400Years * n in
  let n := y / 100 in
  let y := y - 100 * n in
  let d := d + daysPer100Years * n in
  let n := y / 4 in
  let y := y - 4 * n in
  let d := d + daysPer4Years * n in
  d + 365 * y - year1ToUnixDays.

(** Days from 1970-01-01 to the civil date [year]-[month]-[day]; [day]
    is not checked against the length of the month, a day past the end
    (or before the start) of the month counts on into the neighbours. *)
Definition civilDays (year month day : Z) : Z :=
  daysSinceEpoch year
  + daysBefore (month - 1)
  + (if isLeap year && (3 <=? month) then 1 else 0)
  + (day - 1).

(** The year of day number [days] and the day within it, from 0. *)
Definition yearDay (days : Z) : Z * Z :=
  let d := days + year1ToUnixDays in
  let n := d / daysPer400Years in
  let y := 400 * n in
  let d := d - daysPer400Years * n in
  let n := d / daysPer100Years in
  let n := n - Z.shiftr n 2 in
  let y := y + 100 * n in
  let d := d - daysPer100Years * n in
  let n := d / daysPer4Years in
  let y := y + 4 * n in
  let d := d - daysPer4Years * n in
  let n := d / 365 in
  let n := n - Z.shiftr n 2 in
  let y := y + n in
  let d := d - 365 * n in
  (y + 1, d).

(** Month and day of the month of day [yday] of a year. *)
Definition monthDay (leap : bool) (yday : Z) : Z * Z :=
  if leap && (yday =? 31 + 29 - 1) then (2, 29)
  else
    let day := if leap && (yday >? 31 + 29 - 1) then yday - 1 else yday in
    let month := day / 31 in
    let end_ := daysBefore (month + 1) in
    let '(month, begin) :=
      if day >=? end_ then (month + 1, end_) else (month, daysBefore month) in
    (month + 1, day - begin + 1).

(** [absDate]: year, month and day of the clock reading [abs]. *)
Definition absDate (abs : Z) : Z * Z * Z :=
  let '(year, yday) := yearDay (abs / secondsPerDay) in
  let '(month, day) := monthDay (isLeap year) yday in
  (year, month, day).

(** [absClock]: hour, minute and second of the clock reading [abs]. *)
Definition absClock (abs : Z) : Z * Z * Z :=
  let sec := abs mod secondsPerDay in
  let hour := sec / secondsPerHour in
  let sec := sec - hour * secondsPerHour in
  let min := sec / secondsPerMinute in
  let sec := sec - min * secondsPerMinute in
  (hour, min, sec).

Definition Year (t : Time) : Z := fst (fst (absDate (abs t))).
Definition Month (t : Time) : Z := snd (fst (absDate (abs t))).
Definition Day (t : Time) : Z := snd (absDate (abs t)).

(** [norm hi lo base] carries the part of [lo] outside [0, base) over
    into [hi]. *)
Definition norm (hi lo base : Z) : Z * Z :=
  let '(hi, lo) :=
    if lo <? 0 then
      let n := Z.quot (- lo - 1) base + 1 in (hi - n, lo + n * base)
    else (hi, lo) in
  if lo >=? base then
    let n := Z.quot lo base in (hi + n, lo - n * base)
  else (hi, lo).

(** [time.Date]: the instant at which a clock of [l] reads the given civil
    date and time.  The clock reading is first taken as if it were UTC; the
    offset in force there is tried, and when the instant it gives lies
    outside the interval of that offset, the offset in force at that
    instant is used instead. *)
Definition Date (year month day hour min sec nsec : Z) (l : Location) : Time :=
  let m := month - 1 in
  let '(year, m) := norm year m 12 in
  let month := m + 1 in
  let '(sec, nsec) := norm sec nsec nanosPerSecond in
  let '(min, sec) := norm min sec 60 in
  let '(hour, min) := norm hour min 60 in
  let '(day, hour) := norm day hour 24 in
  let d := civilDays year month day in
  let unix := d * secondsPerDay
              + (hour * secondsPerHour + min * secondsPerMinute + sec) in
  let '(off, start, end_) := lookup l unix in
  let unix :=
    if off =? 0 then unix
    else
      let utc := unix - off in
      let off :=
        if (utc <? start) || (utc >=? end_)
        then fst (fst (lookup l utc)) else off in
      unix - off in
  {| instant := unix * nanosPerSecond + nsec; loc := l |}.

(** [t.AddDate]: the civil date of [t] moved by the given years, months and
    days, at the same clock reading, in [t]'s location. *)
Definition AddDate (t : Time) (years months days : Z) : Time :=
  let '(year, month, day) := absDate (abs t) in
  let '(hour, min, sec) := absClock (abs t) in
  Date (year + years) (month + months) (day + days) hour min sec (nsec t) (loc t).

(** [t.UTC()]: the same instant, displayed in UTC. *)
Definition toUTC (t : Time) : Time := {| instant := instant t; loc := UTC |}.

(** [t.Before(u)]. *)
Definition Before (t u : Time) : bool := instant t <? instant u.

(** The length of a month. *)
Definition daysIn (year month : Z) : Z :=
  if (month =? 2) && isLeap year then 29
  else daysBefore month - daysBefore (month - 1).

End GoTime.

(* ================================================================== *)
(** * The InfluxDB client (model) *)
(* ================================================================== *)

(** A Go [error] is represented by its message, [nil] by [None]. *)
Definition error := string.

Module Influx.

(** What [Record().Value()] can hold: an [interface{}] that is [nil] or
    one of the Go types the client decodes a Flux column into. *)
Inductive Value :=
| VNil
| VFloat64 (f : float)
| VInt64 (i : Z)
| VUint64 (u : Z)
| VString (s : string)
| VBool (b : bool)
| VTime (t : GoTime.Time)
| VDuration (d : Z)
| VBytes (b : list Byte.byte).

(** The text [%T] prints for a value. *)
Definition typeName (v : Value) : string :=
  match v with
  | VNil => "<nil>"
  | VFloat64 _ => "float64"
  | VInt64 _ => "int64"
  | VUint64 _ => "uint64"
  | VString _ => "string"
  | VBool _ => "bool"
  | VTime _ => "time.Time"
  | VDuration _ => "time.Duration"
  | VBytes _ => "[]uint8"
  end.

(** A [*api.QueryTableResult] before its first [Next()]: the rows the
    server sent, and the error [Err()] reports. *)
Record QueryTableResult := mkResult { rows : list Value; resErr : option error }.

Definition Next (r : QueryTableResult) : bool :=
  match rows r with [] => false | _ :: _ => true end.

(** [Record().Value()] after the first [Next()]. *)
Definition RecordValue (r : QueryTableResult) : Value := hd VNil (rows r).

Definition Err (r : QueryTableResult) : option error := resErr r.

(** The Flux text that [queryMeasurement] sends is a fixed template with
    four holes; a query is represented by what fills them, and by the
    organisation it is sent to.  [qRangeStart] is the instant (Unix
    seconds) that the RFC 3339 text in [range(start: ...)] denotes. *)
Record FluxQuery := mkQuery {
  qOrg : string;
  qBucket : string;
  qRangeStart : Z;
  qMeasurement : string;
  qDongle : string
}.

End Influx.

(** [start.Format(time.RFC3339)]: RFC 3339 has no fraction of a second. *)
Definition FormatRFC3339 (t : GoTime.Time) : Z := GoTime.unixSec t.

(* ================================================================== *)
(** * [main.go] *)
(* ================================================================== *)

Import GoTime Influx.

Record Config := mkConfig {
  InfluxDBURL : string;
  InfluxDBToken : string;
  InfluxDBOrg : string;
  InfluxDBBucket : string;
  ServerPort : string;
  Dongle : string
}.

Record Response := mkResponse {
  Generated : float;
  Consumed : float;
  Exported : float;
  Imported : float;
  Discharged : float;
  MaxPv : float;
  Error : string
}.

(** The environment of the process: [os.Getenv], which returns the empty
    string for a variable that is not set. *)
Definition Env : Type := string -> string.

(** [loadConfig] returns a [*Config] and an [error]; [nil] is [None]. *)
Definition loadConfig (getenv : Env) : option Config * option error :=
  let config := {| InfluxDBURL := getenv "INFLUXDB_URL";
                   InfluxDBToken := getenv "INFLUXDB_TOKEN";
                   InfluxDBOrg := getenv "INFLUXDB_ORG";
                   InfluxDBBucket := getenv "INFLUXDB_BUCKET";
                   ServerPort := getenv "SERVER_PORT";
                   Dongle := getenv "DONGLE" |} in
  let config :=
    if (ServerPort config =? "")%string then
      {| InfluxDBURL := InfluxDBURL config;
         InfluxDBToken := InfluxDBToken config;
         InfluxDBOrg := InfluxDBOrg config;
         InfluxDBBucket := InfluxDBBucket config;
         ServerPort := "8080";
         Dongle := Dongle config |}
    else config in
  if (InfluxDBURL config =? "")%string || (InfluxDBToken config =? "")%string
     || (InfluxDBOrg config =? "")%string || (InfluxDBBucket config =? "")%string
     || (Dongle config =? "")%string
  then (None, Some "missing required configuration")
  else (Some config, None).

(** ** The outside world

    The handler reads the wall clock and queries the store, several times
    per request.  The world fixes the local zone of the process and
    answers the [n]-th such call: [clock n] is the instant (nanoseconds
    since the Unix epoch) that [time.Now()] returns there, [influx n q] is
    what [QueryAPI.Query] returns for [q] there. *)
Record World := mkWorld {
  Local : Location;
  clock : nat -> Z;
  influx : nat -> FluxQuery -> error + QueryTableResult
}.

(** [tick] counts the calls made so far; [issued] lists the queries sent
    so far with their answers, oldest first. *)
Record State := mkState {
  tick : nat;
  issued : list (FluxQuery * (error + QueryTableResult))
}.

Definition M (A : Type) : Type := State -> A * State.

Definition ret {A : Type} (a : A) : M A := fun s => (a, s).

Definition bind {A B : Type} (c : M A) (k : A -> M B) : M B :=
  fun s => let '(a, s') := c s in k a s'.

Notation "x <- c ;; k" := (bind c (fun x => k))
  (at level 61, c at next level, right associativity).
Notation "' pat <- c ;; k" := (bind c (fun x => match x with pat => k end))
  (at level 61, pat pattern, c at next level, right associativity).

Section Server.

Variable world : World.

(** [time.Now()] *)
Definition timeNow : M Time :=
  fun s => ({| instant := clock world (tick s); loc := Local world |},
            {| tick := S (tick s); issued := issued s |}).

(** [client.QueryAPI(org).Query(ctx, query)] *)
Definition Query (q : FluxQuery) : M (error + QueryTableResult) :=
  fun s => let r := influx world (tick s) q in
           (r, {| tick := S (tick s); issued := issued s ++ [(q, r)] |}).

Definition calculateRangeStart (timeframe : string) : M (Time * option error) :=
  now <- timeNow ;;
  if (timeframe =? "day")%string then
    let localMidnight :=
      Date (Year now) (Month now) (Day now) 0 1 0 0 (Local world) in
    ret (toUTC localMidnight, None)
  else if (timeframe =? "week")%string then
    ret (toUTC (AddDate now 0 0 (-7)), None)
  else if (timeframe =? "month")%string then
    ret (toUTC (AddDate now 0 (-1) 0), None)
  else
    ret (zeroTime, Some ("invalid timeframe: " ++ timeframe)).

Definition processQueryResult (result : QueryTableResult) : float * option error :=
  if negb (Next result) then (0%float, None)
  else
    let value := RecordValue result in
    match value with
    | VNil => (0%float, None)
    | VFloat64 floatValue => (floatValue, Err result)
    | _ => (0%float, Some ("unexpected value type: " ++ typeName value))
    end.

(** The [fmt.Sprintf] of [queryMeasurement], with the organisation the
    query API is opened for. *)
Definition fluxQuery (config : Config) (measurement : string) (start : Time) : FluxQuery :=
  {| qOrg := InfluxDBOrg config;
     qBucket := InfluxDBBucket config;
     qRangeStart := FormatRFC3339 start;
     qMeasurement := measurement;
     qDongle := Dongle config |}.

Definition queryMeasurement (config : Config) (measurement : string) (start : Time)
  : M (float * option error) :=
  let query := fluxQuery config measurement start in
  r <- Query query ;;
  match r with
  | inl err => ret (0%float, Some ("query failed for " ++ measurement ++ ": " ++ err))
  | inr result => ret (processQueryResult result)
  end.

(** The loop of [queryGenerated] over the measurements still to query,
    [total] being the sum so far. *)
Fixpoint sumMeasurements (config : Config) (start : Time)
    (measurements : list string) (total : float) : M (float * option error) :=
  match measurements with
  | [] => ret (total, None)
  | measurement :: rest =>
      '(value, err) <- queryMeasurement config measurement start ;;
      match err with
      | Some e => ret (0%float, Some e)
      | None => sumMeasurements config start rest (total + value)%float
      end
  end.

Definition queryGenerated (config : Config) (timeframe : string) : M (float * option error) :=
  '(start, err) <- calculateRangeStart timeframe ;;
  match err with
  | Some e => ret (0%float, Some e)
  | None =>
      let measurements := ["lux_Epv1_day"; "lux_Epv2_day"; "lux_Epv3_day"] in
      sumMeasurements config start measurements 0%float
  end.

Definition queryConsumed (config : Config) (timeframe : string) : M (float * option error) :=
  '(start, err) <- calculateRangeStart timeframe ;;
  match err with
  | Some e => ret (0%float, Some e)
  | None =>
  '(generated, err) <- queryGenerated config timeframe ;;
  match err with
  | Some e => ret (0%float, Some e)
  | None =>
  '(touser, err) <- queryMeasurement config "lux_Etouser_day" start ;;
  match err with
  | Some e => ret (0%float, Some e)
  | None =>
  '(dischg, err) <- queryMeasurement config "lux_Edischg_day" start ;;
  match err with
  | Some e => ret (0%float, Some e)
  | None =>
  '(togrid, err) <- queryMeasurement config "lux_Etogrid_day" start ;;
  match err with
  | Some e => ret (0%float, Some e)
  | None =>
  '(chg, err) <- queryMeasurement config "lux_Echg_day" start ;;
  match err with
  | Some e => ret (0%float, Some e)
  | None => ret ((generated + touser + dischg - (togrid + chg))%float, None)
  end end end end end end.

Definition queryExported (config : Config) (timeframe : string) : M (float * option error) :=
  '(start, err) <- calculateRangeStart timeframe ;;
  match err with
  | Some e => ret (0%float, Some e)
  | None => queryMeasurement config "lux_Etogrid_day" start
  end.

Definition queryDischarged (config : Config) (timeframe : string) : M (float * option error) :=
  '(start, err) <- calculateRangeStart timeframe ;;
  match err with
  | Some e => ret (0%float, Some e)
  | None => queryMeasurement config "lux_Edischg_day" start
  end.

Definition queryImported (config : Config) (timeframe : string) : M (float * option error) :=
  '(start, err) <- calculateRangeStart timeframe ;;
  match err with
  | Some e => ret (0%float, Some e)
  | None => queryMeasurement config "lux_Etouser_day" start
  end.

Definition queryMaxPv (config : Config) (timeframe : string) : M (float * option error) :=
  '(start, err) <- calculateRangeStart timeframe ;;
  match err with
  | Some e => ret (0%float, Some e)
  | None =>
  '(watts, err) <- queryMeasurement config "lux_Pall" start ;;
  match err with
  | Some e => ret (0%float, Some e)
  | None => ret ((watts / 1000)%float, None)
  end end.

(** ** The HTTP boundary

    A request is represented by its method and by what
    [r.URL.Query().Get("timeframe")] returns (the empty string when the
    parameter is absent). *)
Record Request := mkRequest { Method : string; timeframeParam : string }.

(** What the handler writes: [PlainText msg] stands for what
    [http.Error(w, msg, code)] writes, [JSON r] for what
    [json.NewEncoder(w).Encode(r)] writes. *)
Inductive Body :=
| PlainText (s : string)
| JSON (r : Response).

(** [contentType] is the header the handler sets itself, if any. *)
Record HTTPResponse := mkHTTP {
  status : Z;
  contentType : option string;
  body : Body
}.

Definition StatusOK : Z := 200.
Definition StatusBadRequest : Z := 400.
Definition StatusMethodNotAllowed : Z := 405.
Definition StatusInternalServerError : Z := 500.

(** [Response{Error: msg}]: the other fields keep their zero value. *)
Definition errorResponse (msg : string) : Response :=
  {| Generated := 0; Consumed := 0; Exported := 0; Imported := 0;
     Discharged := 0; MaxPv := 0; Error := msg |}.

(** The error branch that follows each of the six calls. *)
Definition writeError (e : error) : M HTTPResponse :=
  ret {| status := StatusInternalServerError;
         contentType := None;
         body := JSON (errorResponse e) |}.

Definition handleSolarShowdown (config : Config) (r : Request) : M HTTPResponse :=
  if negb (Method r =? "GET")%string then
    ret {| status := StatusMethodNotAllowed;
           contentType := Some "text/plain; charset=utf-8";
           body := PlainText "Method not allowed" |}
  else
  let timeframe := timeframeParam r in
  let timeframe := if (timeframe =? "")%string then "day" else timeframe in
  '(generated, err) <- queryGenerated config timeframe ;;
  match err with
  | Some e => writeError e
  | None =>
  '(consumed, err) <- queryConsumed config timeframe ;;
  match err with
  | Some e => writeError e
  | None =>
  '(exported, err) <- queryExported config timeframe ;;
  match err with
  | Some e => writeError e
  | None =>
  '(imported, err) <- queryImported config timeframe ;;
  match err with
  | Some e => writeError e
  | None =>
  '(discharged, err) <- queryDischarged config timeframe ;;
  match err with
  | Some e => writeError e
  | None =>
  '(maxPv, err) <- queryMaxPv config timeframe ;;
  match err with
  | Some e => writeError e
  | None =>
      let response := {| Generated := generated;
                         Consumed := consumed;
                         Exported := exported;
                         Imported := imported;
                         Discharged := discharged;
                         MaxPv := maxPv;
                         Error := "" |} in
      ret {| status := StatusOK;
             contentType := Some "application/json";
             body := JSON response |}
  end end end end end end.

End Server.

(** ** Start-up

    What [main] does, in order.  [Fatalf msg] stands for [log.Fatalf],
    which logs [msg] and exits with status 1 without running the deferred
    calls; [HandleFunc pattern config] for the registration of
    [handleSolarShowdown(client, config)] under [pattern]; [Panic] for a
    nil dereference. *)
Inductive Event :=
| NewClient (serverURL authToken : string)
| Close
| HandleFunc (pattern : string) (config : Config)
| Printf (msg : string)
| ListenAndServe (addr : string)
| Fatalf (msg : string)
| Panic.

(** [listen addr] is what [http.ListenAndServe(addr, nil)] returns, when
    it returns. *)
Definition main (getenv : Env) (listen : string -> option error) : list Event :=
  match loadConfig getenv with
  | (_, Some err) => [Fatalf ("Failed to load configuration: " ++ err)]
  | (None, None) => [Panic]
  | (Some config, None) =>
      [NewClient (InfluxDBURL config) (InfluxDBToken config);
       HandleFunc "/solarshowdown" config;
       Printf ("Starting server on port " ++ ServerPort config);
       ListenAndServe (":" ++ ServerPort config);
       match listen (":" ++ ServerPort config) with
       | Some err => Fatalf ("Server failed to start: " ++ err)
       | None => Close
       end]
  end.

(* ================================================================== *)
(** * Vocabulary of the specification *)
(* ================================================================== *)

(** The timeframe tokens the resolver accepts. *)
Definition supported (timeframe : string) : Prop :=
  timeframe = "day" \/ timeframe = "week" \/ timeframe = "month".

Definition nanosPerDay : Z := secondsPerDay * nanosPerSecond.

(** The time of day, in nanoseconds since midnight, that a clock [off]
    seconds east of UTC shows at the instant [now]. *)
Definition localTimeOfDay (off now : Z) : Z :=
  (now + off * nanosPerSecond) mod nanosPerDay.

(** "Local midnight of the current calendar day": the instant at which
    that clock last showed 00:00:00. *)
Definition localMidnight (off now : Z) : Z := now - localTimeOfDay off now.

(** "... shifted forward by a one-minute grace offset". *)
Definition specDayStart (off now : Z) : Z :=
  localMidnight off now + 60 * nanosPerSecond.

(** "now minus 7 calendar days", of 24 hours each. *)
Definition specWeekStart (now : Z) : Z := now - 7 * nanosPerDay.

(** The month before [month] of [year], as a (year, month) pair. *)
Definition previousMonth (year month : Z) : Z * Z :=
  if month =? 1 then (year - 1, 12) else (year, month - 1).

(** "now minus 1 calendar month": back by the length of the month that
    precedes the calendar month of [now] on that clock. *)
Definition specMonthStart (off now : Z) : Z :=
  let '(year, month, _) := absDate (now / nanosPerSecond + off) in
  let '(pyear, pmonth) := previousMonth year month in
  now - daysIn pyear pmonth * nanosPerDay.

(** A zone whose offsets lie within a day of UTC; those of the zones in
    use lie within 14 hours. *)
Definition saneOffsets (l : Location) : Prop :=
  Forall (fun o => - secondsPerDay <= o <= secondsPerDay) (zoneOffsets l).

(** [isInfix sub s]: the text [sub] occurs in [s]. *)
Fixpoint isInfix (sub s : string) : bool :=
  String.prefix sub s ||
  match s with
  | EmptyString => false
  | String _ s' => isInfix sub s'
  end.

(** A store call failed, as [queryMeasurement] sees it: the transport
    reported an error, or the answer is one [processQueryResult] rejects. *)
Definition failed (ev : FluxQuery * (error + QueryTableResult)) : bool :=
  match snd ev with
  | inl _ => true
  | inr result =>
      match snd (processQueryResult result) with
      | Some _ => true
      | None => false
      end
  end.


(** The measurement names of a list of store calls. *)
Definition measurementsOf (evs : list (FluxQuery * (error + QueryTableResult))) : list string :=
  map (fun ev => qMeasurement (fst ev)) evs.

(** A table with the single row [max()] yields. *)
Definition oneRow (v : float) : QueryTableResult :=
  {| rows := [VFloat64 v]; resErr := None |}.

(** A fixture store: every query on measurement [m] is answered with the
    one value [fixture m], whenever it is asked. *)
Definition fixtureStore (world : World) (fixture : string -> float) : Prop :=
  forall n q, influx world n q = inr (oneRow (fixture (qMeasurement q))).

(** The two replies of the handler to a GET request. *)
Definition errorReply (msg : string) : HTTPResponse :=
  {| status := StatusInternalServerError;
     contentType := None;
     body := JSON (errorResponse msg) |}.

Definition okReply (r : Response) : HTTPResponse :=
  {| status := StatusOK;
     contentType := Some "application/json";
     body := JSON r |}.


(** What the handler makes of the [timeframe] parameter. *)
Definition requestedTimeframe (r : Request) : string :=
  if (timeframeParam r =? "")%string then "day" else timeframeParam r.

(** A run from [s] that returned [a] without error after sending
    queries on the measurements [ms], in this order, and nothing else. *)
Definition Answered {A : Type} (ms : list string) (a : A)
    (run : (A * option error) * State) (s : State) : Prop :=
  fst run = (a, None)
  /\ exists evs,
       issued (snd run) = (issued s ++ evs)%list /\ measurementsOf evs = ms.

(** ** Finite checks *)

(** [allFrom f lo n]: [f] holds of the [n] integers from [lo] on. *)
Fixpoint allFrom (f : Z -> bool) (lo : Z) (n : nat) : bool :=
  match n with
  | O => true
  | S n' => f lo && allFrom f (lo + 1) n'
  end.

(** [monthDay] inverts the count of days before a date within its year. *)
Definition checkMonthDay (leap : bool) (yday : Z) : bool :=
  let '(month, day) := monthDay leap yday in
  (1 <=? month) && (month <=? 12) && (1 <=? day)
  && (day <=? daysBefore month - daysBefore (month - 1)
              + (if leap && (month =? 2) then 1 else 0))
  && (daysBefore (month - 1) + (if leap && (3 <=? month) then 1 else 0)
      + (day - 1) =? yday).

(** ** Worlds and inputs used in examples *)

Definition config0 : Config :=
  {| InfluxDBURL := "http://influx:8086"; InfluxDBToken := "token";
     InfluxDBOrg := "home"; InfluxDBBucket := "solar";
     ServerPort := "8080"; Dongle := "BA12345678" |}.

Definition state0 : State := {| tick := 0; issued := [] |}.

(** 2024-03-15 00:00:30 UTC and 2024-03-15 12:00:00 UTC. *)
Definition halfPastMidnight : Z := 1710460830 * nanosPerSecond.
Definition noon : Z := 1710504000 * nanosPerSecond.

(** The energy balance fixture: generation 4 + 3.5 + 2.5 = 10. *)
Definition balanceFixture (m : string) : float :=
  if (m =? "lux_Epv1_day")%string then 4
  else if (m =? "lux_Epv2_day")%string then 3.5
  else if (m =? "lux_Epv3_day")%string then 2.5
  else if (m =? "lux_Etouser_day")%string then 2
  else if (m =? "lux_Edischg_day")%string then 1
  else if (m =? "lux_Etogrid_day")%string then 3
  else if (m =? "lux_Echg_day")%string then 0.5
  else if (m =? "lux_Pall")%string then 2500
  else 0.

(** A process in zone [l] whose clock stands at [now] and whose store
    answers every query with [answer]. *)
Definition constWorld (l : Location) (now : Z)
    (answer : FluxQuery -> error + QueryTableResult) : World :=
  {| Local := l; clock := fun _ => now; influx := fun _ q => answer q |}.

Definition fixtureWorld : World :=
  constWorld UTC noon (fun q => inr (oneRow (balanceFixture (qMeasurement q)))).

Definition emptyWorld : World :=
  constWorld UTC noon (fun _ => inr {| rows := []; resErr := None |}).

Definition nilWorld : World :=
  constWorld UTC noon (fun _ => inr {| rows := [VNil]; resErr := None |}).

Definition textWorld : World :=
  constWorld UTC noon (fun _ => inr {| rows := [VString "n/a"]; resErr := None |}).

Definition downWorld : World :=
  constWorld UTC noon (fun _ => inl "connection refused").

Definition midnightWorld : World :=
  constWorld UTC halfPastMidnight (fun _ => inr {| rows := []; resErr := None |}).

(** New York in 2024: five hours west of UTC, four from March 10,
    07:00 UTC, to November 3, 06:00 UTC. *)
Definition newYork : Location :=
  {| firstOffset := -18000;
     tx := [ {| when := 1710054000; offset := -14400 |};
             {| when := 1730613600; offset := -18000 |} ] |}.

(** March 10, 2024, 15:00 in New York (19:00 UTC), on the day the
    clocks went forward. *)
Definition shortDayWorld : World :=
  constWorld newYork (1710097200 * nanosPerSecond)
    (fun _ => inr {| rows := []; resErr := None |}).


(* ================================================================== *)
(** * Vocabulary: the queries of a request *)
(* ================================================================== *)

(** The error that [queryMeasurement] returns for a store call, if any. *)
Definition errorOf (ev : FluxQuery * (error + QueryTableResult)) : option error :=
  match snd ev with
  | inl cause =>
      Some ("query failed for " ++ qMeasurement (fst ev) ++ ": " ++ cause)
  | inr result => snd (processQueryResult result)
  end.

(** The start that [calculateRangeStart] returns when it reads the clock
    as the [n]-th call. *)
Definition startAt (world : World) (timeframe : string) (n : nat) : Time :=
  fst (fst (calculateRangeStart world timeframe {| tick := n; issued := [] |})).

(** The queries on the measurements [ms] over the window from [start]. *)
Definition ask (config : Config) (start : Time) (ms : list string) : list FluxQuery :=
  map (fun m => fluxQuery config m start) ms.

Section Plans.

Variable world : World.
Variable config : Config.
Variable timeframe : string.

(** The queries of each operation, when its first call is the [n]-th. *)
Definition planGenerated (n : nat) : list FluxQuery :=
  ask config (startAt world timeframe n)
    ["lux_Epv1_day"; "lux_Epv2_day"; "lux_Epv3_day"].

Definition planSingle (measurement : string) (n : nat) : list FluxQuery :=
  ask config (startAt world timeframe n) [measurement].

Definition planConsumed (n : nat) : list FluxQuery :=
  (planGenerated (S n)
   ++ ask config (startAt world timeframe n)
        ["lux_Etouser_day"; "lux_Edischg_day"; "lux_Etogrid_day"; "lux_Echg_day"])%list.

(** The fourteen queries of a request, in the order of the handler. *)
Definition planHandler (n : nat) : list FluxQuery :=
  (planGenerated n
   ++ planConsumed (4 + n)
   ++ planSingle "lux_Etogrid_day" (13 + n)
   ++ planSingle "lux_Etouser_day" (15 + n)
   ++ planSingle "lux_Edischg_day" (17 + n)
   ++ planSingle "lux_Pall" (19 + n))%list.

End Plans.

(** How a run that stopped with the error [e] after the calls [evs] came
    to it: the token was not [ok], no query was sent and [e] is [bad]; or
    the calls are the first of [plan], all but the last succeeded and [e]
    is the error of the last. *)
Definition StoppedAt (ok : Prop) (bad : error) (plan : list FluxQuery)
    (evs : list (FluxQuery * (error + QueryTableResult))) (e : error)
    (s s' : State) : Prop :=
  (~ ok /\ evs = [] /\ e = bad /\ tick s' = S (tick s))
  \/ (ok /\ exists evs0 ev rest,
        evs = (evs0 ++ [ev])%list
        /\ plan = (map fst evs ++ rest)%list
        /\ existsb failed evs0 = false
        /\ errorOf ev = Some e).

(** A run that came to its end: all of [plan] was sent and succeeded, in
    [n] calls. *)
Definition Completed (ok : Prop) (plan : list FluxQuery) (n : nat)
    (evs : list (FluxQuery * (error + QueryTableResult)))
    (s s' : State) : Prop :=
  ok /\ map fst evs = plan /\ tick s' = (n + tick s)%nat
  /\ existsb failed evs = false.

(** A run of an operation from [s], with its plan. *)
Definition Traced {A : Type} (ok : Prop) (bad : error) (plan : list FluxQuery)
    (n : nat) (run : (A * option error) * State) (s : State) : Prop :=
  exists evs,
    issued (snd run) = (issued s ++ evs)%list
    /\ match snd (fst run) with
       | None => Completed ok plan n evs s (snd run)
       | Some e => StoppedAt ok bad plan evs e s (snd run)
       end.

(** A run of the handler from [s], with its plan. *)
Definition Replied (ok : Prop) (bad : error) (plan : list FluxQuery)
    (n : nat) (run : HTTPResponse * State) (s : State) : Prop :=
  exists evs,
    issued (snd run) = (issued s ++ evs)%list
    /\ ((exists r, fst run = okReply r /\ Error r = ""
                   /\ Completed ok plan n evs s (snd run))
        \/ (exists e, fst run = errorReply e
                      /\ StoppedAt ok bad plan evs e s (snd run))).

(** The variables [loadConfig] cannot do without. *)
Definition requiredVariables : list string :=
  ["INFLUXDB_URL"; "INFLUXDB_TOKEN"; "INFLUXDB_ORG"; "INFLUXDB_BUCKET"; "DONGLE"].

(** The measurements the program asks for. *)
Definition measurementNames : list string :=
  ["lux_Epv1_day"; "lux_Epv2_day"; "lux_Epv3_day"; "lux_Etouser_day";
   "lux_Edischg_day"; "lux_Etogrid_day"; "lux_Echg_day"; "lux_Pall"].

(** A query on one of these measurements, for the configured
    organisation, bucket and dongle. *)
Definition scoped (config : Config) (q : FluxQuery) : Prop :=
  qOrg q = InfluxDBOrg config
  /\ qBucket q = InfluxDBBucket config
  /\ qDongle q = Dongle config
  /\ In (qMeasurement q) measurementNames.

(** The reply of [http.Error(w, "Method not allowed", 405)]. *)
Definition methodNotAllowedReply : HTTPResponse :=
  {| status := StatusMethodNotAllowed;
     contentType := Some "text/plain; charset=utf-8";
     body := PlainText "Method not allowed" |}.

(** The window start, as sent to the store, of each query of a list of
    store calls. *)
Definition rangeStartsOf (evs : list (FluxQuery * (error + QueryTableResult))) : list Z :=
  map (fun ev => qRangeStart (fst ev)) evs.

(** A store that yields the value [fixture m] for every query on the
    measurement [m]: the answer is one that [processQueryResult] turns
    into this value, without error. *)
Definition valueStore (world : World) (fixture : string -> float) : Prop :=
  forall n q, exists result,
    influx world n q = inr result
    /\ processQueryResult result = (fixture (qMeasurement q), None).

(** A store without data: every query is answered, with no row or with a
    first row whose value is nil. *)
Definition noData (world : World) : Prop :=
  forall n q, exists result,
    influx world n q = inr result
    /\ (rows result = [] \/ exists more, rows result = VNil :: more).

(** A run that returned [a] without error. *)
Definition Returns {A : Type} (a : A) (run : (A * option error) * State) : Prop :=
  fst run = (a, None).

(** The record of a request served from a value store. *)
Definition fixtureResponse (fixture : string -> float) : Response :=
  let generated := (0 + fixture "lux_Epv1_day" + fixture "lux_Epv2_day"
                    + fixture "lux_Epv3_day")%float in
  {| Generated := generated;
     Consumed := (generated + fixture "lux_Etouser_day" + fixture "lux_Edischg_day"
                  - (fixture "lux_Etogrid_day" + fixture "lux_Echg_day"))%float;
     Exported := fixture "lux_Etogrid_day";
     Imported := fixture "lux_Etouser_day";
     Discharged := fixture "lux_Edischg_day";
     MaxPv := (fixture "lux_Pall" / 1000)%float;
     Error := "" |}.

(** The civil date that a clock [off] seconds east of UTC shows at the
    instant [now]. *)
Definition localDate (off now : Z) : Z * Z * Z :=
  absDate (now / nanosPerSecond + off).

(** The date a month before the date of [now] on that clock: the same day
    of the preceding month, and when that month is too short for it, as
    many days into the month of [now] as it is too short. *)
Definition specMonthDate (off now : Z) : Z * Z * Z :=
  let '(year, month, day) := localDate off now in
  let '(pyear, pmonth) := previousMonth year month in
  if day <=? daysIn pyear pmonth then (pyear, pmonth, day)
  else (year, month, day - daysIn pyear pmonth).

(** ** More worlds and inputs used in examples *)

(** An environment with everything set but the port. *)
Definition homeEnv : Env := fun name =>
  if (name =? "INFLUXDB_URL")%string then "http://influx:8086"
  else if (name =? "INFLUXDB_TOKEN")%string then "token"
  else if (name =? "INFLUXDB_ORG")%string then "home"
  else if (name =? "INFLUXDB_BUCKET")%string then "solar"
  else if (name =? "DONGLE")%string then "BA12345678"
  else "".


(** A store that sends more rows than [max()] should yield. *)
Definition twoRowsWorld : World :=
  constWorld UTC noon
    (fun _ => inr {| rows := [VFloat64 3; VString "n/a"]; resErr := None |}).

(** A store that answers every query with the value 3. *)
Definition threeWorld : World := constWorld UTC noon (fun _ => inr (oneRow 3)).

(** A clock that advances by one second with every call. *)
Definition tickingWorld : World :=
  {| Local := UTC;
     clock := fun n => noon + Z.of_nat n * nanosPerSecond;
     influx := fun _ q => inr (oneRow (balanceFixture (qMeasurement q))) |}.

(** The local zone is UTC and the clock stands at noon; a query is
    answered with no row before the third call and with a nil value
    from then on. *)
Definition sparseWorld : World :=
  {| Local := UTC;
     clock := fun _ => noon;
     influx := fun n _ =>
       inr {| rows := if (n <? 3)%nat then [] else [VNil; VFloat64 7];
              resErr := None |} |}.

(** 2024-03-31 12:00:00 UTC. *)
Definition endOfMarch : Z := 1711886400 * nanosPerSecond.

Definition endOfMarchWorld : World :=
  constWorld UTC endOfMarch (fun _ => inr {| rows := []; resErr := None |}).

(** A listener that finds the port taken. *)
Definition portTaken (addr : string) : option error :=
  Some ("listen tcp " ++ addr ++ ": bind: address already in use").

(* ================================================================== *)
(** * The calendar of package [time] *)
(* ================================================================== *)

Lemma rem_eqb_mod (a b : Z) : b <> 0 -> (Z.rem a b =? 0) = (a mod b =? 0).
Proof.
  intros Hb.
  destruct (Z.eqb_spec (Z.rem a b) 0) as [E | E];
    destruct (Z.eqb_spec (a mod b) 0) as [E' | E']; try reflexivity.
  - apply Z.rem_mod_eq_0 in E; [contradiction | assumption].
  - apply Z.rem_mod_eq_0 in E'; [contradiction | assumption].
Qed.

Lemma isLeap_mod (year : Z) :
  isLeap year
  = (year mod 4 =? 0) && (negb (year mod 100 =? 0) || (year mod 400 =? 0)).
Proof. unfold isLeap. now rewrite !rem_eqb_mod by lia. Qed.

Ltac split_eqb :=
  repeat match goal with
         | |- context [?a =? ?b] => destruct (Z.eqb_spec a b)
         end;
  cbn [andb orb negb].

(** [yearDay] splits a day number into a year and a day of that year. *)
Lemma yearDay_spec (days : Z) :
  let '(y, yd) := yearDay days in
  daysSinceEpoch y + yd = days
  /\ 0 <= yd < 365 + (if isLeap y then 1 else 0).
Proof.
  unfold yearDay, daysSinceEpoch, daysPer400Years, daysPer100Years,
    daysPer4Years, year1ToUnixDays.
  rewrite isLeap_mod, !Z.shiftr_div_pow2 by lia.
  change (2 ^ 2) with 4. cbv zeta.
  split_eqb; Z.div_mod_to_equations; lia.
Qed.

(** A year is 365 days long, a leap year 366. *)
Lemma daysSinceEpoch_succ (year : Z) :
  daysSinceEpoch (year + 1)
  = daysSinceEpoch year + 365 + (if isLeap year then 1 else 0).
Proof.
  unfold daysSinceEpoch, daysPer400Years, daysPer100Years,
    daysPer4Years, year1ToUnixDays.
  rewrite isLeap_mod. cbv zeta.
  split_eqb; Z.div_mod_to_equations; lia.
Qed.

Lemma allFrom_spec (f : Z -> bool) (n : nat) :
  forall lo, allFrom f lo n = true ->
  forall i, lo <= i < lo + Z.of_nat n -> f i = true.
Proof.
  induction n as [| n IH]; intros lo H i Hi.
  - simpl in Hi. lia.
  - cbn [allFrom] in H. apply andb_true_iff in H as [H0 H1].
    destruct (Z.eq_dec i lo) as [-> | Hne]; [assumption |].
    apply (IH (lo + 1) H1). lia.
Qed.

Lemma checkMonthDay_all (leap : bool) (yday : Z) :
  0 <= yday < 365 + (if leap then 1 else 0) ->
  checkMonthDay leap yday = true.
Proof.
  intros H.
  destruct leap.
  - apply (allFrom_spec (checkMonthDay true) 366 0); [vm_compute; reflexivity | lia].
  - apply (allFrom_spec (checkMonthDay false) 365 0); [vm_compute; reflexivity | lia].
Qed.

Lemma daysIn_table (year month : Z) :
  daysIn year month
  = daysBefore month - daysBefore (month - 1)
    + (if isLeap year && (month =? 2) then 1 else 0).
Proof.
  unfold daysIn.
  destruct (Z.eqb_spec month 2) as [-> | _]; destruct (isLeap year);
    cbn [andb]; try reflexivity; lia.
Qed.

(** [absDate] names the day of its clock reading: a month from 1 to 12,
    a day of that month, and [civilDays] counts back to it. *)
Lemma absDate_spec (a : Z) :
  let '(y, m, d) := absDate a in
  civilDays y m d = a / secondsPerDay
  /\ 1 <= m <= 12 /\ 1 <= d <= daysIn y m.
Proof.
  unfold absDate.
  pose proof (yearDay_spec (a / secondsPerDay)) as Hy.
  destruct (yearDay (a / secondsPerDay)) as [y yd].
  destruct Hy as [Hsum Hyd].
  pose proof (checkMonthDay_all (isLeap y) yd Hyd) as Hc.
  unfold checkMonthDay in Hc.
  destruct (monthDay (isLeap y) yd) as [m d].
  rewrite !andb_true_iff in Hc.
  destruct Hc as [[[[H1 H2] H3] H4] H5].
  rewrite daysIn_table. unfold civilDays.
  lia.
Qed.

(* ================================================================== *)
(** * Dates in a zone *)
(* ================================================================== *)

Lemma norm_in_range (hi lo base : Z) :
  0 <= lo < base -> norm hi lo base = (hi, lo).
Proof.
  intros H. unfold norm.
  destruct (Z.ltb_spec lo 0); [lia |].
  destruct (Z.geb_spec lo base); [lia | reflexivity].
Qed.

Lemma lookupTx_offset_in (rest : list zoneTrans) :
  forall cur sec,
  In (fst (fst (lookupTx cur rest sec))) (offset cur :: map offset rest).
Proof.
  induction rest as [| nxt rest IH]; intros cur sec; cbn [lookupTx].
  - left. reflexivity.
  - destruct (sec <? when nxt); [left; reflexivity |].
    right. apply IH.
Qed.

(** Whatever the instant, the offset in force is one of the zone's. *)
Lemma offsetAt_in (l : Location) (sec : Z) : In (offsetAt l sec) (zoneOffsets l).
Proof.
  unfold offsetAt, zoneOffsets, lookup.
  destruct (tx l) as [| t0 rest]; [left; reflexivity |].
  destruct (sec <? when t0); [left; reflexivity |].
  right. apply lookupTx_offset_in.
Qed.

Lemma lookup_fixed (l : Location) (sec : Z) :
  tx l = [] -> lookup l sec = (firstOffset l, alpha, omega).
Proof. intros H. unfold lookup. now rewrite H. Qed.

Lemma offsetAt_fixed (l : Location) (sec : Z) :
  tx l = [] -> offsetAt l sec = firstOffset l.
Proof. intros H. unfold offsetAt. now rewrite lookup_fixed. Qed.

Lemma zoneOffsets_fixed (l : Location) (off : Z) :
  tx l = [] -> In off (zoneOffsets l) -> off = firstOffset l.
Proof.
  unfold zoneOffsets. intros -> [H | []]. now symmetry.
Qed.

Lemma abs_offsetAt (now : Z) (l : Location) :
  abs {| instant := now; loc := l |}
  = now / nanosPerSecond + offsetAt l (now / nanosPerSecond).
Proof.
  unfold abs, offsetAt, unixSec. cbn [instant loc].
  now destruct (lookup l (now / nanosPerSecond)) as [[off st] en].
Qed.

(** A clock reading names the instant at which a clock running at one of
    the offsets of the zone shows it. *)
Lemma Date_in_zone (l : Location) (year month day hour min sec nsec : Z) :
  1 <= month <= 12 -> 0 <= hour < 24 -> 0 <= min < 60 -> 0 <= sec < 60 ->
  0 <= nsec < nanosPerSecond ->
  exists off,
    In off (zoneOffsets l)
    /\ Date year month day hour min sec nsec l
       = {| instant :=
              (civilDays year month day * secondsPerDay
               + (hour * secondsPerHour + min * secondsPerMinute + sec)
               - off) * nanosPerSecond + nsec;
            loc := l |}.
Proof.
  intros Hm Hh Hmi Hs Hn. unfold Date.
  rewrite (norm_in_range year (month - 1) 12) by lia.
  rewrite (norm_in_range sec nsec nanosPerSecond) by assumption.
  rewrite (norm_in_range min sec 60) by assumption.
  rewrite (norm_in_range hour min 60) by assumption.
  rewrite (norm_in_range day hour 24) by assumption.
  replace (month - 1 + 1) with month by lia.
  set (unix := civilDays year month day * secondsPerDay
               + (hour * secondsPerHour + min * secondsPerMinute + sec)).
  pose proof (offsetAt_in l unix) as Hin. unfold offsetAt in Hin.
  destruct (lookup l unix) as [[off st] en]. cbn [fst] in Hin.
  destruct (Z.eqb_spec off 0) as [E | E].
  - exists off. split; [assumption |]. rewrite E. now rewrite Z.sub_0_r.
  - destruct ((unix - off <? st) || (unix - off >=? en)).
    + exists (offsetAt l (unix - off)). split; [apply offsetAt_in | reflexivity].
    + exists off. split; [assumption | reflexivity].
Qed.

(** Month 0 is December of the year before. *)
Lemma Date_month0 (l : Location) (year day hour min sec nsec : Z) :
  Date year 0 day hour min sec nsec l = Date (year - 1) 12 day hour min sec nsec l.
Proof. reflexivity. Qed.

Lemma absClock_spec (a : Z) :
  let '(hour, min, sec) := absClock a in
  0 <= hour < 24 /\ 0 <= min < 60 /\ 0 <= sec < 60
  /\ hour * secondsPerHour + min * secondsPerMinute + sec = a mod secondsPerDay.
Proof.
  unfold absClock, secondsPerHour, secondsPerMinute, secondsPerDay.
  cbv zeta. Z.div_mod_to_equations. lia.
Qed.

Lemma civilDays_previousMonth (year month day : Z) :
  1 <= month <= 12 ->
  let '(pyear, pmonth) := previousMonth year month in
  civilDays pyear pmonth day = civilDays year month day - daysIn pyear pmonth.
Proof.
  intros H. unfold previousMonth.
  pose proof (daysSinceEpoch_succ (year - 1)) as Hy.
  replace (year - 1 + 1) with year in Hy by lia.
  assert (Hcases : month = 1 \/ month = 2 \/ month = 3 \/ month = 4
                   \/ month = 5 \/ month = 6 \/ month = 7 \/ month = 8
                   \/ month = 9 \/ month = 10 \/ month = 11 \/ month = 12) by lia.
  unfold civilDays, daysIn.
  repeat (destruct Hcases as [-> | Hcases]); try subst month;
    repeat match goal with
           | |- context [daysBefore ?k] =>
               let v := eval vm_compute in (daysBefore k) in
               change (daysBefore k) with v
           | |- context [?a =? ?b] =>
               let v := eval vm_compute in (a =? b) in
               change (a =? b) with v
           | |- context [?a <=? ?b] =>
               let v := eval vm_compute in (a <=? b) in
               change (a <=? b) with v
           | _ => progress cbv beta iota
           end;
    destruct (isLeap year); destruct (isLeap (year - 1));
    cbn [andb] in *; lia.
Qed.

Lemma nsec_range (t : Time) : 0 <= nsec t < nanosPerSecond.
Proof. unfold nsec, nanosPerSecond. apply Z.mod_pos_bound. lia. Qed.

Lemma Date_previousMonth (l : Location) (year month day hour min sec nsec : Z) :
  1 <= month <= 12 ->
  Date year (month + -1) day hour min sec nsec l
  = let '(pyear, pmonth) := previousMonth year month in
    Date pyear pmonth day hour min sec nsec l.
Proof.
  intros H. unfold previousMonth.
  destruct (Z.eqb_spec month 1) as [-> | Hne].
  - apply Date_month0.
  - reflexivity.
Qed.

Lemma previousMonth_range (year month : Z) :
  1 <= month <= 12 -> 1 <= snd (previousMonth year month) <= 12.
Proof.
  intros H. unfold previousMonth.
  destruct (Z.eqb_spec month 1); cbn [snd]; lia.
Qed.

Section ZoneOfNow.

Variable l : Location.
Variable now : Z.

Let off : Z := offsetAt l (now / nanosPerSecond).

(** [time.Date(now.Year(), now.Month(), now.Day(), 0, 1, 0, 0, time.Local)] *)
Lemma Date_day_start :
  let t := {| instant := now; loc := l |} in
  exists offDay,
    In offDay (zoneOffsets l)
    /\ Date (Year t) (Month t) (Day t) 0 1 0 0 l
       = {| instant := specDayStart off now + (off - offDay) * nanosPerSecond;
            loc := l |}.
Proof.
  intros t. unfold Year, Month, Day. subst t. rewrite abs_offsetAt. fold off.
  set (a := now / nanosPerSecond + off).
  pose proof (absDate_spec a) as Hd. destruct (absDate a) as [[y m] d].
  destruct Hd as (Hd & Hm & _). cbn [fst snd].
  destruct (Date_in_zone l y m d 0 1 0 0) as (offDay & Hin & ->);
    try assumption; try (unfold nanosPerSecond; lia).
  exists offDay. split; [assumption |]. f_equal. rewrite Hd.
  unfold specDayStart, localMidnight, localTimeOfDay, nanosPerDay.
  subst a. clearbody off.
  unfold secondsPerDay, secondsPerHour, secondsPerMinute, nanosPerSecond.
  Z.div_mod_to_equations. lia.
Qed.

(** [now.AddDate(0, 0, -7)] *)
Lemma AddDate_week :
  exists offWeek,
    In offWeek (zoneOffsets l)
    /\ AddDate {| instant := now; loc := l |} 0 0 (-7)
       = {| instant := specWeekStart now + (off - offWeek) * nanosPerSecond;
            loc := l |}.
Proof.
  unfold AddDate. rewrite abs_offsetAt. fold off. cbn [loc].
  set (a := now / nanosPerSecond + off).
  pose proof (absDate_spec a) as Hd. destruct (absDate a) as [[y m] d].
  pose proof (absClock_spec a) as Hc. destruct (absClock a) as [[hh mi] ss].
  destruct Hd as (Hd & Hm & _). destruct Hc as (Hh & Hmi & Hs & Hc).
  rewrite !Z.add_0_r.
  destruct (Date_in_zone l y m (d + -7) hh mi ss
              (nsec {| instant := now; loc := l |}))
    as (offWeek & Hin & ->); try assumption; [apply nsec_range |].
  exists offWeek. split; [assumption |]. f_equal.
  unfold civilDays in *. rewrite Hc.
  unfold specWeekStart, nanosPerDay, nsec. cbn [instant].
  subst a. clearbody off.
  unfold secondsPerDay, nanosPerSecond in *.
  Z.div_mod_to_equations. lia.
Qed.

(** [now.AddDate(0, -1, 0)] *)
Lemma AddDate_month :
  exists offMonth,
    In offMonth (zoneOffsets l)
    /\ AddDate {| instant := now; loc := l |} 0 (-1) 0
       = {| instant := specMonthStart off now + (off - offMonth) * nanosPerSecond;
            loc := l |}.
Proof.
  unfold AddDate, specMonthStart. rewrite abs_offsetAt. fold off. cbn [loc].
  set (a := now / nanosPerSecond + off).
  pose proof (absDate_spec a) as Hd. destruct (absDate a) as [[y m] d].
  pose proof (absClock_spec a) as Hc. destruct (absClock a) as [[hh mi] ss].
  destruct Hd as (Hd & Hm & _). destruct Hc as (Hh & Hmi & Hs & Hc).
  rewrite !Z.add_0_r, Date_previousMonth by assumption.
  pose proof (civilDays_previousMonth y m d Hm) as Hp.
  pose proof (previousMonth_range y m Hm) as Hr.
  destruct (previousMonth y m) as [py pm]. cbn [snd] in Hr.
  destruct (Date_in_zone l py pm d hh mi ss
              (nsec {| instant := now; loc := l |}))
    as (offMonth & Hin & ->); try assumption; [apply nsec_range |].
  exists offMonth. split; [assumption |]. f_equal. rewrite Hp, Hd, Hc.
  unfold nanosPerDay, nsec. cbn [instant].
  subst a. clearbody off.
  unfold secondsPerDay, nanosPerSecond in *.
  generalize (daysIn py pm). intros k.
  Z.div_mod_to_equations. lia.
Qed.

End ZoneOfNow.

(** The clock shows a time of day, and [localMidnight] is the instant at
    which it last showed 00:00:00. *)
Lemma localMidnight_spec (off now : Z) :
  0 <= localTimeOfDay off now < nanosPerDay
  /\ localMidnight off now <= now < localMidnight off now + nanosPerDay
  /\ localTimeOfDay off (localMidnight off now) = 0.
Proof.
  unfold localMidnight, localTimeOfDay, nanosPerDay, secondsPerDay, nanosPerSecond.
  Z.div_mod_to_equations. lia.
Qed.

Lemma daysIn_range (year month : Z) :
  1 <= month <= 12 -> 28 <= daysIn year month <= 31.
Proof.
  intros H. rewrite daysIn_table.
  assert (Hcases : month = 1 \/ month = 2 \/ month = 3 \/ month = 4
                   \/ month = 5 \/ month = 6 \/ month = 7 \/ month = 8
                   \/ month = 9 \/ month = 10 \/ month = 11 \/ month = 12) by lia.
  repeat (destruct Hcases as [-> | Hcases]); try subst month;
    destruct (isLeap year); vm_compute; split; discriminate.
Qed.

(** A calendar month back is between 28 and 31 days back. *)
Lemma specMonthStart_range (off now : Z) :
  now - 31 * nanosPerDay <= specMonthStart off now <= now - 28 * nanosPerDay.
Proof.
  unfold specMonthStart.
  pose proof (absDate_spec (now / nanosPerSecond + off)) as Hd.
  destruct (absDate _) as [[y m] d]. destruct Hd as (_ & Hm & _).
  pose proof (previousMonth_range y m Hm) as Hr.
  destruct (previousMonth y m) as [py pm]. cbn [snd] in Hr.
  pose proof (daysIn_range py pm Hr). unfold nanosPerDay, secondsPerDay, nanosPerSecond.
  lia.
Qed.

(* ================================================================== *)
(** * The time-window resolver *)
(* ================================================================== *)

Lemma calculateRangeStart_state (world : World) (timeframe : string) (s : State) :
  snd (calculateRangeStart world timeframe s)
  = {| tick := S (tick s); issued := issued s |}.
Proof.
  unfold calculateRangeStart, bind, timeNow, ret.
  now repeat destruct (_ =? _)%string.
Qed.

(** The resolver reads nothing but the clock and the local zone. *)
Lemma calculateRangeStart_deterministic
    (w1 w2 : World) (s1 s2 : State) (timeframe : string) :
  Local w2 = Local w1 ->
  clock w2 (tick s2) = clock w1 (tick s1) ->
  fst (calculateRangeStart w2 timeframe s2)
  = fst (calculateRangeStart w1 timeframe s1).
Proof.
  intros HL Hc. unfold calculateRangeStart, bind, timeNow, ret.
  rewrite HL, Hc. now repeat destruct (_ =? _)%string.
Qed.

Section Resolver.

Variable world : World.
Variable s : State.

Let zone : Location := Local world.
Let now : Z := clock world (tick s).
Let off : Z := offsetAt zone (now / nanosPerSecond).

Lemma calculateRangeStart_day :
  exists offDay,
    In offDay (zoneOffsets zone)
    /\ fst (calculateRangeStart world "day" s)
       = ({| instant := specDayStart off now + (off - offDay) * nanosPerSecond;
             loc := UTC |}, None).
Proof.
  destruct (Date_day_start zone now) as (offDay & Hin & H).
  exists offDay. split; [assumption |].
  unfold calculateRangeStart, bind, timeNow, ret.
  cbn [String.eqb Ascii.eqb Bool.eqb fst].
  fold zone now. now rewrite H.
Qed.

Lemma calculateRangeStart_week :
  exists offWeek,
    In offWeek (zoneOffsets zone)
    /\ fst (calculateRangeStart world "week" s)
       = ({| instant := specWeekStart now + (off - offWeek) * nanosPerSecond;
             loc := UTC |}, None).
Proof.
  destruct (AddDate_week zone now) as (offWeek & Hin & H).
  exists offWeek. split; [assumption |].
  unfold calculateRangeStart, bind, timeNow, ret.
  cbn [String.eqb Ascii.eqb Bool.eqb fst].
  fold zone now. now rewrite H.
Qed.

Lemma calculateRangeStart_month :
  exists offMonth,
    In offMonth (zoneOffsets zone)
    /\ fst (calculateRangeStart world "month" s)
       = ({| instant := specMonthStart off now + (off - offMonth) * nanosPerSecond;
             loc := UTC |}, None).
Proof.
  destruct (AddDate_month zone now) as (offMonth & Hin & H).
  exists offMonth. split; [assumption |].
  unfold calculateRangeStart, bind, timeNow, ret.
  cbn [String.eqb Ascii.eqb Bool.eqb fst].
  fold zone now. now rewrite H.
Qed.

End Resolver.



(** In a zone of a single offset the windows are the plain ones. *)
Lemma calculateRangeStart_fixed (world : World) (s : State) :
  tx (Local world) = [] ->
  let now := clock world (tick s) in
  let off := firstOffset (Local world) in
  fst (calculateRangeStart world "day" s)
  = ({| instant := specDayStart off now; loc := UTC |}, None)
  /\ fst (calculateRangeStart world "week" s)
     = ({| instant := specWeekStart now; loc := UTC |}, None)
  /\ fst (calculateRangeStart world "month" s)
     = ({| instant := specMonthStart off now; loc := UTC |}, None).
Proof.
  intros Hfix now off.
  destruct (calculateRangeStart_day world s) as (offDay & HinD & ->).
  destruct (calculateRangeStart_week world s) as (offWeek & HinW & ->).
  destruct (calculateRangeStart_month world s) as (offMonth & HinM & ->).
  rewrite (zoneOffsets_fixed _ _ Hfix HinD), (zoneOffsets_fixed _ _ Hfix HinW),
    (zoneOffsets_fixed _ _ Hfix HinM), !offsetAt_fixed by assumption.
  fold off now. rewrite Z.sub_diag, Z.mul_0_l, !Z.add_0_r. auto.
Qed.

(** On the day the clocks go forward, the day has started 14 hours
    before 15:00: "day" resolves to 00:01 of the old offset (05:01 UTC),
    an hour after the midnight that the new offset suggests. *)
Lemma calculateRangeStart_short_day :
  fst (calculateRangeStart shortDayWorld "day" state0)
  = ({| instant := 1710046860 * nanosPerSecond; loc := UTC |}, None)
  /\ offsetAt newYork 1710097200 = -14400
  /\ specDayStart (-14400) (1710097200 * nanosPerSecond)
     + (-14400 - -18000) * nanosPerSecond
     = 1710046860 * nanosPerSecond.
Proof. repeat split. Qed.

(** C6.  A token other than day, week and month, the empty one included,
    makes the resolver fail with the invalid-timeframe error; nothing is
    defaulted. *)
Theorem calculateRangeStart_invalid (world : World) (s : State) (timeframe : string) :
  ~ supported timeframe ->
  fst (calculateRangeStart world timeframe s)
  = (zeroTime, Some ("invalid timeframe: " ++ timeframe)).
Proof.
  intros H. unfold supported in H.
  unfold calculateRangeStart, bind, timeNow, ret.
  destruct (String.eqb_spec timeframe "day"); [tauto |].
  destruct (String.eqb_spec timeframe "week"); [tauto |].
  destruct (String.eqb_spec timeframe "month"); [tauto |].
  reflexivity.
Qed.

Lemma not_supported_empty : ~ supported "".
Proof. intros [H | [H | H]]; discriminate H. Qed.

Lemma calculateRangeStart_invalid_witness :
  ~ supported ""
  /\ fst (calculateRangeStart fixtureWorld "" state0)
     = (zeroTime, Some "invalid timeframe: ").
Proof.
  split; [exact not_supported_empty |].
  exact (calculateRangeStart_invalid fixtureWorld state0 "" not_supported_empty).
Defined.

(** It is the handler that turns an absent timeframe into "day". *)
Lemma requestedTimeframe_default (method : string) :
  requestedTimeframe {| Method := method; timeframeParam := "" |} = "day".
Proof. reflexivity. Qed.

(** C7, as stated, fails: half a minute past midnight the start of
    "day" is half a minute ahead of now. *)
Lemma day_start_after_now :
  supported "day"
  /\ fst (calculateRangeStart midnightWorld "day" state0)
     = ({| instant := 1710460860 * nanosPerSecond; loc := UTC |}, None)
  /\ Before {| instant := 1710460860 * nanosPerSecond; loc := UTC |}
            {| instant := clock midnightWorld (tick state0);
               loc := Local midnightWorld |} = false.
Proof. repeat split. left. reflexivity. Qed.

Lemma specDayStart_before (off now : Z) :
  specDayStart off now < now <-> 60 * nanosPerSecond < localTimeOfDay off now.
Proof. unfold specDayStart, localMidnight. lia. Qed.

Lemma saneOffsets_drift (l : Location) (o1 o2 : Z) :
  saneOffsets l -> In o1 (zoneOffsets l) -> In o2 (zoneOffsets l) ->
  (o1 - o2) * nanosPerSecond <= 2 * nanosPerDay.
Proof.
  intros Hs H1 H2. unfold saneOffsets in Hs. rewrite Forall_forall in Hs.
  pose proof (Hs o1 H1). pose proof (Hs o2 H2).
  unfold nanosPerDay, secondsPerDay, nanosPerSecond in *. lia.
Qed.

(** C7, amended.  The start is a function of the token, the local zone
    and the instant read from the clock.  For "week" and "month" it is
    strictly before that instant, in every zone whose offsets lie within a
    day of UTC; for "day", in a zone of a single offset, it is so exactly
    when the local clock shows a time later than 00:01:00. *)
Theorem calculateRangeStart_before_now
    (w1 w2 : World) (s1 s2 : State) (timeframe : string) :
  supported timeframe ->
  Local w2 = Local w1 ->
  clock w2 (tick s2) = clock w1 (tick s1) ->
  let zone := Local w1 in
  let now := {| instant := clock w1 (tick s1); loc := zone |} in
  exists start,
    fst (calculateRangeStart w1 timeframe s1) = (start, None)
    /\ fst (calculateRangeStart w2 timeframe s2) = (start, None)
    /\ (timeframe <> "day" -> saneOffsets zone -> Before start now = true)
    /\ (timeframe = "day" -> tx zone = [] ->
        (Before start now = true
         <-> 60 * nanosPerSecond
             < localTimeOfDay (firstOffset zone) (instant now))).
Proof.
  intros Hs HL Hc. cbv zeta.
  rewrite (calculateRangeStart_deterministic w1 w2 s1 s2 timeframe HL Hc).
  pose proof (offsetAt_in (Local w1) (clock w1 (tick s1) / nanosPerSecond)) as Hoff.
  destruct Hs as [-> | [-> | ->]].
  - destruct (calculateRangeStart_day w1 s1) as (offDay & Hin & H).
    eexists. split; [exact H |]. split; [exact H |].
    split; [congruence |]. intros _ Hfix.
    rewrite (zoneOffsets_fixed _ _ Hfix Hin), offsetAt_fixed by assumption.
    rewrite Z.sub_diag, Z.mul_0_l, Z.add_0_r.
    unfold Before. cbn [instant]. rewrite Z.ltb_lt.
    apply specDayStart_before.
  - destruct (calculateRangeStart_week w1 s1) as (offWeek & Hin & H).
    eexists. split; [exact H |]. split; [exact H |].
    split; [| discriminate]. intros _ Hsane.
    unfold Before. cbn [instant]. apply Z.ltb_lt.
    pose proof (saneOffsets_drift _ _ _ Hsane Hoff Hin) as Hd.
    unfold specWeekStart, nanosPerDay, secondsPerDay, nanosPerSecond in *. lia.
  - destruct (calculateRangeStart_month w1 s1) as (offMonth & Hin & H).
    eexists. split; [exact H |]. split; [exact H |].
    split; [| discriminate]. intros _ Hsane.
    unfold Before. cbn [instant]. apply Z.ltb_lt.
    pose proof (saneOffsets_drift _ _ _ Hsane Hoff Hin) as Hd.
    pose proof (specMonthStart_range
                  (offsetAt (Local w1) (clock w1 (tick s1) / nanosPerSecond))
                  (clock w1 (tick s1))) as Hr.
    unfold nanosPerDay, secondsPerDay, nanosPerSecond in *. lia.
Qed.

Lemma supported_week : supported "week".
Proof. right. left. reflexivity. Qed.

Lemma calculateRangeStart_before_now_witness :
  let now := {| instant := halfPastMidnight; loc := UTC |} in
  exists start,
    fst (calculateRangeStart midnightWorld "week" state0) = (start, None)
    /\ fst (calculateRangeStart midnightWorld "week" state0) = (start, None)
    /\ ("week" <> "day" -> saneOffsets UTC -> Before start now = true)
    /\ ("week" = "day" -> tx UTC = [] ->
        (Before start now = true
         <-> 60 * nanosPerSecond < localTimeOfDay 0 halfPastMidnight)).
Proof.
  exact (calculateRangeStart_before_now midnightWorld midnightWorld
           state0 state0 "week" supported_week eq_refl eq_refl).
Defined.

(* ================================================================== *)
(** * The store queries *)
(* ================================================================== *)

(** What [queryMeasurement] makes of the answer of the store. *)
Lemma queryMeasurement_run (world : World) (config : Config)
    (measurement : string) (start : Time) (s : State) :
  let q := fluxQuery config measurement start in
  let r := influx world (tick s) q in
  queryMeasurement world config measurement start s
  = (match r with
     | inl err => (0%float, Some ("query failed for " ++ measurement ++ ": " ++ err))
     | inr result => processQueryResult result
     end,
     {| tick := S (tick s); issued := (issued s ++ [(q, r)])%list |}).
Proof.
  cbv zeta. unfold queryMeasurement, bind, Query, ret.
  now destruct (influx world (tick s) _).
Qed.

(** C4.  When the store answers a query with no rows, [queryMeasurement]
    returns exactly 0 and no error. *)
Theorem queryMeasurement_no_rows (world : World) (config : Config)
    (measurement : string) (start : Time) (s : State) (result : QueryTableResult) :
  influx world (tick s) (fluxQuery config measurement start) = inr result ->
  rows result = [] ->
  fst (queryMeasurement world config measurement start s) = (0%float, None).
Proof.
  intros Hq Hr. rewrite queryMeasurement_run. cbn [fst]. rewrite Hq.
  unfold processQueryResult, Next. now rewrite Hr.
Qed.

Lemma queryMeasurement_no_rows_witness :
  fst (queryMeasurement emptyWorld config0 "lux_Epv1_day" zeroTime state0)
  = (0%float, None).
Proof.
  exact (queryMeasurement_no_rows emptyWorld config0 "lux_Epv1_day" zeroTime
           state0 {| rows := []; resErr := None |} eq_refl eq_refl).
Defined.

(** C10.  When the value of the first row is nil, [queryMeasurement]
    returns 0 and no error; nil is not reported as a value of the wrong
    type. *)
Theorem queryMeasurement_nil_value (world : World) (config : Config)
    (measurement : string) (start : Time) (s : State)
    (result : QueryTableResult) (rest : list Value) :
  influx world (tick s) (fluxQuery config measurement start) = inr result ->
  rows result = VNil :: rest ->
  fst (queryMeasurement world config measurement start s) = (0%float, None).
Proof.
  intros Hq Hr. rewrite queryMeasurement_run. cbn [fst]. rewrite Hq.
  unfold processQueryResult, Next, RecordValue. now rewrite Hr.
Qed.

Lemma queryMeasurement_nil_value_witness :
  fst (queryMeasurement nilWorld config0 "lux_Epv1_day" zeroTime state0)
  = (0%float, None).
Proof.
  exact (queryMeasurement_nil_value nilWorld config0 "lux_Epv1_day" zeroTime
           state0 {| rows := [VNil]; resErr := None |} [] eq_refl eq_refl).
Defined.

(** C5, as stated, fails: the error for a text value names the type of
    the value and not the measurement. *)
Lemma unexpected_type_omits_measurement :
  fst (queryMeasurement textWorld config0 "lux_Pall" zeroTime state0)
  = (0%float, Some "unexpected value type: string")
  /\ isInfix "string" "unexpected value type: string" = true
  /\ isInfix "lux_Pall" "unexpected value type: string" = false.
Proof. repeat split. Qed.

(** C5, amended.  When the first row holds a value that is neither nil
    nor a float64, [queryMeasurement] fails with the unexpected-value-type
    error, whose text ends in the Go type of the value and is the same for
    every measurement. *)
Theorem queryMeasurement_unexpected_type (world : World) (config : Config)
    (measurement : string) (start : Time) (s : State)
    (result : QueryTableResult) (value : Value) (rest : list Value) :
  influx world (tick s) (fluxQuery config measurement start) = inr result ->
  rows result = value :: rest ->
  value <> VNil ->
  (forall f, value <> VFloat64 f) ->
  fst (queryMeasurement world config measurement start s)
  = (0%float, Some ("unexpected value type: " ++ typeName value)).
Proof.
  intros Hq Hr Hnil Hfl. rewrite queryMeasurement_run. cbn [fst]. rewrite Hq.
  unfold processQueryResult, Next, RecordValue. rewrite Hr. cbn [negb hd].
  destruct value; try reflexivity; [contradiction | now elim (Hfl f)].
Qed.

Lemma VString_not_nil (t : string) : VString t <> VNil.
Proof. discriminate. Qed.

Lemma VString_not_float (t : string) (f : float) : VString t <> VFloat64 f.
Proof. discriminate. Qed.

Lemma queryMeasurement_unexpected_type_witness :
  fst (queryMeasurement textWorld config0 "lux_Pall" zeroTime state0)
  = (0%float, Some "unexpected value type: string").
Proof.
  exact (queryMeasurement_unexpected_type textWorld config0 "lux_Pall" zeroTime
           state0 {| rows := [VString "n/a"]; resErr := None |}
           (VString "n/a") [] eq_refl eq_refl
           (VString_not_nil "n/a") (VString_not_float "n/a")).
Defined.

(* ================================================================== *)
(** * Fail-fast aggregation *)
(* ================================================================== *)

Section FailFast.

Variable world : World.
Variable config : Config.













End FailFast.

Section Handler.

Variable world : World.
Variable config : Config.





Lemma handleSolarShowdown_other (r : Request) (s : State) :
  Method r <> "GET" ->
  handleSolarShowdown world config r s
  = ({| status := StatusMethodNotAllowed;
        contentType := Some "text/plain; charset=utf-8";
        body := PlainText "Method not allowed" |}, s).
Proof.
  intros Hm. unfold handleSolarShowdown.
  destruct (String.eqb_spec (Method r) "GET"); [contradiction | reflexivity].
Qed.

End Handler.


(* ================================================================== *)
(** * The derivation formulas *)
(* ================================================================== *)

Section Fixture.

Variable world : World.
Variable config : Config.
Variable fixture : string -> float.
Hypothesis Hfix : fixtureStore world fixture.

Lemma Answered_ret {A : Type} (a : A) (s : State) :
  Answered [] a (ret (a, None) s) s.
Proof. split; [reflexivity |]. exists []. cbn. now rewrite app_nil_r. Qed.

Lemma Answered_bind {A B : Type} (ms1 ms2 : list string) (a : A) (b : B)
    (c : M (A * option error)) (rest : A -> M (B * option error))
    (zero : B) (s : State) :
  Answered ms1 a (c s) s ->
  (forall s1, Answered ms2 b (rest a s1) s1) ->
  Answered (ms1 ++ ms2) b
    (('(a, err) <- c ;;
      match err with
      | Some e => ret (zero, Some e)
      | None => rest a
      end) s) s.
Proof.
  intros (Hv & evs1 & Hi1 & Hm1) Hrest. unfold bind.
  destruct (c s) as [[a' err] s1]. cbn [fst snd] in *.
  injection Hv as -> ->.
  destruct (Hrest s1) as (Hv2 & evs2 & Hi2 & Hm2).
  split; [assumption |]. exists (evs1 ++ evs2)%list.
  rewrite Hi2, Hi1, app_assoc. split; [reflexivity |].
  unfold measurementsOf in *. now rewrite map_app, Hm1, Hm2.
Qed.

Lemma Answered_calculateRangeStart (timeframe : string) (s : State) :
  supported timeframe ->
  exists start, Answered [] start (calculateRangeStart world timeframe s) s.
Proof.
  intros Hs.
  exists (fst (fst (calculateRangeStart world timeframe s))).
  split.
  - unfold calculateRangeStart, bind, timeNow, ret.
    destruct Hs as [-> | [-> | ->]]; reflexivity.
  - exists []. rewrite calculateRangeStart_state. cbn. now rewrite app_nil_r.
Qed.

Lemma Answered_queryMeasurement (measurement : string) (start : Time) (s : State) :
  Answered [measurement] (fixture measurement)
    (queryMeasurement world config measurement start s) s.
Proof.
  rewrite queryMeasurement_run. cbv zeta. rewrite Hfix.
  split; [reflexivity |]. eexists [_]. split; reflexivity.
Qed.

Lemma Answered_sumMeasurements (start : Time) (measurements : list string) :
  forall total s,
  Answered measurements
    (fold_left (fun t m => (t + fixture m)%float) measurements total)
    (sumMeasurements world config start measurements total s) s.
Proof.
  induction measurements as [| m ms IH]; intros total s.
  - apply Answered_ret.
  - cbn [sumMeasurements fold_left].
    apply (Answered_bind [m] ms (fixture m) _
             (queryMeasurement world config m start)
             (fun value => sumMeasurements world config start ms (total + value)%float)).
    + apply Answered_queryMeasurement.
    + intros; apply IH.
Qed.

Ltac answered_step ms1 ms2 a :=
  match goal with
  | |- Answered _ ?b (bind ?c (fun x => match x with (a', err) => match err with
                                        | Some e => _ | None => @?rest a' end end) ?s) ?s =>
      apply (Answered_bind ms1 ms2 a b c rest)
  end.

Lemma Answered_queryGenerated (timeframe : string) (s : State) :
  supported timeframe ->
  Answered ["lux_Epv1_day"; "lux_Epv2_day"; "lux_Epv3_day"]
    (0 + fixture "lux_Epv1_day" + fixture "lux_Epv2_day"
     + fixture "lux_Epv3_day")%float
    (queryGenerated world config timeframe s) s.
Proof.
  intros Hs. destruct (Answered_calculateRangeStart timeframe s Hs) as [start H].
  unfold queryGenerated.
  answered_step (@nil string) ["lux_Epv1_day"; "lux_Epv2_day"; "lux_Epv3_day"] start;
    [exact H |].
  intros s1. apply (Answered_sumMeasurements start [_; _; _]).
Qed.

Lemma Answered_single (timeframe measurement : string) (s : State) :
  supported timeframe ->
  Answered [measurement] (fixture measurement)
    (('(start, err) <- calculateRangeStart world timeframe ;;
      match err with
      | Some e => ret (0%float, Some e)
      | None => queryMeasurement world config measurement start
      end) s) s.
Proof.
  intros Hs. destruct (Answered_calculateRangeStart timeframe s Hs) as [start H].
  answered_step (@nil string) [measurement] start; [exact H |].
  intros; apply Answered_queryMeasurement.
Qed.

Lemma Answered_queryConsumed (timeframe : string) (s : State) :
  supported timeframe ->
  Answered
    ["lux_Epv1_day"; "lux_Epv2_day"; "lux_Epv3_day"; "lux_Etouser_day";
     "lux_Edischg_day"; "lux_Etogrid_day"; "lux_Echg_day"]
    ((0 + fixture "lux_Epv1_day" + fixture "lux_Epv2_day"
      + fixture "lux_Epv3_day")
     + fixture "lux_Etouser_day" + fixture "lux_Edischg_day"
     - (fixture "lux_Etogrid_day" + fixture "lux_Echg_day"))%float
    (queryConsumed world config timeframe s) s.
Proof.
  intros Hs. destruct (Answered_calculateRangeStart timeframe s Hs) as [start H].
  unfold queryConsumed.
  answered_step (@nil string)
    ["lux_Epv1_day"; "lux_Epv2_day"; "lux_Epv3_day"; "lux_Etouser_day";
     "lux_Edischg_day"; "lux_Etogrid_day"; "lux_Echg_day"] start; [exact H |].
  intros s1.
  answered_step ["lux_Epv1_day"; "lux_Epv2_day"; "lux_Epv3_day"]
    ["lux_Etouser_day"; "lux_Edischg_day"; "lux_Etogrid_day"; "lux_Echg_day"]
    (0 + fixture "lux_Epv1_day" + fixture "lux_Epv2_day"
     + fixture "lux_Epv3_day")%float;
    [now apply Answered_queryGenerated |].
  intros s2.
  answered_step ["lux_Etouser_day"]
    ["lux_Edischg_day"; "lux_Etogrid_day"; "lux_Echg_day"]
    (fixture "lux_Etouser_day"); [apply Answered_queryMeasurement |].
  intros s3.
  answered_step ["lux_Edischg_day"] ["lux_Etogrid_day"; "lux_Echg_day"]
    (fixture "lux_Edischg_day"); [apply Answered_queryMeasurement |].
  intros s4.
  answered_step ["lux_Etogrid_day"] ["lux_Echg_day"]
    (fixture "lux_Etogrid_day"); [apply Answered_queryMeasurement |].
  intros s5.
  answered_step ["lux_Echg_day"] (@nil string)
    (fixture "lux_Echg_day"); [apply Answered_queryMeasurement |].
  intros s6. apply Answered_ret.
Qed.

End Fixture.

(** C1.  With a supported timeframe and a store that answers every query
    on a measurement with its fixture value, [queryConsumed] returns
    generated + imported + discharged - (exported + charged), where
    generated, imported, discharged and exported are what the operations
    of these names return, generated is the sum of the three PV strings
    and charged is the battery-charge value; and [queryConsumed] sends its
    own seven queries for them, the three PV strings first. *)
Theorem queryConsumed_energy_balance
    (world : World) (config : Config) (timeframe : string)
    (fixture : string -> float) (s s' : State) :
  supported timeframe ->
  fixtureStore world fixture ->
  let generated := (0 + fixture "lux_Epv1_day" + fixture "lux_Epv2_day"
                    + fixture "lux_Epv3_day")%float in
  let imported := fixture "lux_Etouser_day" in
  let discharged := fixture "lux_Edischg_day" in
  let exported := fixture "lux_Etogrid_day" in
  let charged := fixture "lux_Echg_day" in
  fst (queryGenerated world config timeframe s') = (generated, None)
  /\ fst (queryImported world config timeframe s') = (imported, None)
  /\ fst (queryDischarged world config timeframe s') = (discharged, None)
  /\ fst (queryExported world config timeframe s') = (exported, None)
  /\ fst (queryConsumed world config timeframe s)
     = ((generated + imported + discharged - (exported + charged))%float, None)
  /\ exists evs,
       issued (snd (queryConsumed world config timeframe s))
       = (issued s ++ evs)%list
       /\ measurementsOf evs
          = ["lux_Epv1_day"; "lux_Epv2_day"; "lux_Epv3_day"; "lux_Etouser_day";
             "lux_Edischg_day"; "lux_Etogrid_day"; "lux_Echg_day"].
Proof.
  intros Hs Hfix. cbv zeta.
  split; [apply (Answered_queryGenerated world config fixture Hfix timeframe s' Hs) |].
  split; [apply (Answered_single world config fixture Hfix timeframe _ s' Hs) |].
  split; [apply (Answered_single world config fixture Hfix timeframe _ s' Hs) |].
  split; [apply (Answered_single world config fixture Hfix timeframe _ s' Hs) |].
  apply (Answered_queryConsumed world config fixture Hfix timeframe s Hs).
Qed.

Lemma supported_day : supported "day".
Proof. left. reflexivity. Qed.

Lemma fixtureWorld_fixture : fixtureStore fixtureWorld balanceFixture.
Proof. intros n q. reflexivity. Qed.

Lemma queryConsumed_energy_balance_witness :
  fst (queryGenerated fixtureWorld config0 "day" state0) = (10%float, None)
  /\ fst (queryImported fixtureWorld config0 "day" state0) = (2%float, None)
  /\ fst (queryDischarged fixtureWorld config0 "day" state0) = (1%float, None)
  /\ fst (queryExported fixtureWorld config0 "day" state0) = (3%float, None)
  /\ fst (queryConsumed fixtureWorld config0 "day" state0) = (9.5%float, None)
  /\ exists evs,
       issued (snd (queryConsumed fixtureWorld config0 "day" state0))
       = ([] ++ evs)%list
       /\ measurementsOf evs
          = ["lux_Epv1_day"; "lux_Epv2_day"; "lux_Epv3_day"; "lux_Etouser_day";
             "lux_Edischg_day"; "lux_Etogrid_day"; "lux_Echg_day"].
Proof.
  exact (queryConsumed_energy_balance fixtureWorld config0 "day" balanceFixture
           state0 state0 supported_day fixtureWorld_fixture).
Defined.

Lemma calculateRangeStart_supported (world : World) (timeframe : string) (s : State) :
  supported timeframe ->
  exists start,
    calculateRangeStart world timeframe s
    = ((start, None), {| tick := S (tick s); issued := issued s |}).
Proof.
  intros Hs. exists (fst (fst (calculateRangeStart world timeframe s))).
  rewrite <- calculateRangeStart_state with (world := world) (timeframe := timeframe).
  unfold calculateRangeStart, bind, timeNow, ret.
  destruct Hs as [-> | [-> | ->]]; reflexivity.
Qed.

(** C8.  With a supported timeframe, when the store answers the query on
    the total-power measurement (the call that follows the reading of the
    clock) with the value [watts] and reports no error, [queryMaxPv]
    returns [watts / 1000]. *)
Theorem queryMaxPv_kilowatts (world : World) (config : Config)
    (timeframe : string) (s : State) (watts : float) (rest : list Value) :
  supported timeframe ->
  (forall q, qMeasurement q = "lux_Pall" ->
             influx world (S (tick s)) q
             = inr {| rows := VFloat64 watts :: rest; resErr := None |}) ->
  fst (queryMaxPv world config timeframe s) = ((watts / 1000)%float, None).
Proof.
  intros Hs Hq.
  destruct (calculateRangeStart_supported world timeframe s Hs) as [start Hc].
  unfold queryMaxPv, bind. rewrite Hc, queryMeasurement_run. cbv zeta.
  cbn [tick]. rewrite Hq by reflexivity. reflexivity.
Qed.

Lemma fixtureWorld_watts (q : FluxQuery) :
  qMeasurement q = "lux_Pall" ->
  influx fixtureWorld (S (tick state0)) q
  = inr {| rows := [VFloat64 2500]; resErr := None |}.
Proof. intros H. cbn. now rewrite H. Qed.

Lemma queryMaxPv_kilowatts_witness :
  fst (queryMaxPv fixtureWorld config0 "day" state0) = (2.5%float, None).
Proof.
  exact (queryMaxPv_kilowatts fixtureWorld config0 "day" state0 2500 []
           supported_day fixtureWorld_watts).
Defined.

(** C9 (the code departs from it).  A GET request with an unrecognized
    timeframe is answered with status 500, the status of a store failure,
    and not with the 400 that the README documents for it. *)
Theorem invalid_timeframe_is_server_error
    (world : World) (config : Config) (s : State) :
  let bad := fst (handleSolarShowdown world config
                    {| Method := "GET"; timeframeParam := "bogus" |} s) in
  let down := fst (handleSolarShowdown downWorld config
                     {| Method := "GET"; timeframeParam := "day" |} s) in
  bad = errorReply "invalid timeframe: bogus"
  /\ down = errorReply "query failed for lux_Epv1_day: connection refused"
  /\ status bad = status down
  /\ status bad <> StatusBadRequest.
Proof.
  cbv zeta. split; [reflexivity |]. split; [reflexivity |].
  split; [reflexivity | discriminate].
Qed.

(* ================================================================== *)
(** * Start-up: [loadConfig] and [main] *)
(* ================================================================== *)

Lemma eqb_empty_false (t : string) : t <> "" -> (t =? "")%string = false.
Proof. intros H. now destruct (String.eqb_spec t ""). Qed.

(** [loadConfig] in one piece. *)
Lemma loadConfig_unfold (getenv : Env) :
  loadConfig getenv
  = if (getenv "INFLUXDB_URL" =? "")%string
       || (getenv "INFLUXDB_TOKEN" =? "")%string
       || (getenv "INFLUXDB_ORG" =? "")%string
       || (getenv "INFLUXDB_BUCKET" =? "")%string
       || (getenv "DONGLE" =? "")%string
    then (None, Some "missing required configuration")
    else (Some {| InfluxDBURL := getenv "INFLUXDB_URL";
                  InfluxDBToken := getenv "INFLUXDB_TOKEN";
                  InfluxDBOrg := getenv "INFLUXDB_ORG";
                  InfluxDBBucket := getenv "INFLUXDB_BUCKET";
                  ServerPort := if (getenv "SERVER_PORT" =? "")%string
                                then "8080" else getenv "SERVER_PORT";
                  Dongle := getenv "DONGLE" |}, None).
Proof.
  unfold loadConfig. cbv zeta.
  cbn [InfluxDBURL InfluxDBToken InfluxDBOrg InfluxDBBucket ServerPort Dongle].
  destruct (getenv "SERVER_PORT" =? "")%string; reflexivity.
Qed.

(** One of the required variables is unset or empty. *)
Lemma missing_required (getenv : Env) :
  (exists name, In name requiredVariables /\ getenv name = "")
  <-> (getenv "INFLUXDB_URL" =? "")%string
      || (getenv "INFLUXDB_TOKEN" =? "")%string
      || (getenv "INFLUXDB_ORG" =? "")%string
      || (getenv "INFLUXDB_BUCKET" =? "")%string
      || (getenv "DONGLE" =? "")%string = true.
Proof.
  split.
  - intros (name & Hin & Hempty). cbn in Hin.
    repeat (destruct Hin as [<- | Hin];
            [rewrite Hempty; cbn [String.eqb orb]; now rewrite ?orb_true_r |]).
    contradiction.
  - intros H.
    destruct (String.eqb_spec (getenv "INFLUXDB_URL") "") as [E1 | _];
      [exists "INFLUXDB_URL"; split; [cbn; tauto | exact E1] |].
    destruct (String.eqb_spec (getenv "INFLUXDB_TOKEN") "") as [E2 | _];
      [exists "INFLUXDB_TOKEN"; split; [cbn; tauto | exact E2] |].
    destruct (String.eqb_spec (getenv "INFLUXDB_ORG") "") as [E3 | _];
      [exists "INFLUXDB_ORG"; split; [cbn; tauto | exact E3] |].
    destruct (String.eqb_spec (getenv "INFLUXDB_BUCKET") "") as [E4 | _];
      [exists "INFLUXDB_BUCKET"; split; [cbn; tauto | exact E4] |].
    destruct (String.eqb_spec (getenv "DONGLE") "") as [E5 | _];
      [exists "DONGLE"; split; [cbn; tauto | exact E5] |].
    discriminate H.
Qed.

(** X1.  [loadConfig] fails exactly when one of the five required variables
    is unset or empty, always with the same error and no configuration; the
    port plays no part in it. *)
Theorem loadConfig_fails_iff (getenv : Env) :
  (exists name, In name requiredVariables /\ getenv name = "")
  <-> loadConfig getenv = (None, Some "missing required configuration").
Proof.
  rewrite loadConfig_unfold, missing_required.
  destruct (_ || _)%bool; split; intros H; (reflexivity || discriminate H).
Qed.

(** X2.  When all five required variables are set, [loadConfig] returns them
    as they are, with the port of the environment or, when that is unset or
    empty, "8080"; no field it checks, and no port, is empty. *)
Theorem loadConfig_succeeds (getenv : Env) :
  (forall name, In name requiredVariables -> getenv name <> "") ->
  exists config,
    loadConfig getenv = (Some config, None)
    /\ InfluxDBURL config = getenv "INFLUXDB_URL"
    /\ InfluxDBToken config = getenv "INFLUXDB_TOKEN"
    /\ InfluxDBOrg config = getenv "INFLUXDB_ORG"
    /\ InfluxDBBucket config = getenv "INFLUXDB_BUCKET"
    /\ Dongle config = getenv "DONGLE"
    /\ ServerPort config
       = (if (getenv "SERVER_PORT" =? "")%string then "8080"
          else getenv "SERVER_PORT")
    /\ ServerPort config <> "".
Proof.
  intros Hset. rewrite loadConfig_unfold.
  rewrite (eqb_empty_false _ (Hset "INFLUXDB_URL" ltac:(cbn; tauto))).
  rewrite (eqb_empty_false _ (Hset "INFLUXDB_TOKEN" ltac:(cbn; tauto))).
  rewrite (eqb_empty_false _ (Hset "INFLUXDB_ORG" ltac:(cbn; tauto))).
  rewrite (eqb_empty_false _ (Hset "INFLUXDB_BUCKET" ltac:(cbn; tauto))).
  rewrite (eqb_empty_false _ (Hset "DONGLE" ltac:(cbn; tauto))).
  cbn [orb]. eexists. split; [reflexivity |].
  cbn [InfluxDBURL InfluxDBToken InfluxDBOrg InfluxDBBucket Dongle ServerPort].
  repeat (split; [reflexivity |]).
  destruct (String.eqb_spec (getenv "SERVER_PORT") ""); [discriminate | assumption].
Qed.

Lemma homeEnv_set (name : string) : In name requiredVariables -> homeEnv name <> "".
Proof.
  cbn. intros H.
  repeat (destruct H as [<- | H]; [discriminate |]). contradiction.
Qed.

Lemma loadConfig_succeeds_witness :
  exists config,
    loadConfig homeEnv = (Some config, None)
    /\ InfluxDBURL config = "http://influx:8086"
    /\ InfluxDBToken config = "token"
    /\ InfluxDBOrg config = "home"
    /\ InfluxDBBucket config = "solar"
    /\ Dongle config = "BA12345678"
    /\ ServerPort config = "8080"
    /\ ServerPort config <> "".
Proof. exact (loadConfig_succeeds homeEnv homeEnv_set). Defined.

(** X17.  [main] stops before it creates a client or listens, with the fatal
    message "Failed to load configuration: missing required configuration",
    exactly when one of the five required variables is unset or empty. *)
Theorem main_missing_configuration (getenv : Env) (listen : string -> option error) :
  (exists name, In name requiredVariables /\ getenv name = "")
  <-> main getenv listen
      = [Fatalf "Failed to load configuration: missing required configuration"].
Proof.
  unfold main. rewrite missing_required, loadConfig_unfold.
  destruct (_ || _)%bool; [split; reflexivity |].
  split; discriminate.
Qed.

(** X18.  With the five required variables set, [main] creates the client
    for the configured URL and token, registers the handler, with the loaded
    configuration, under "/solarshowdown" and nothing else, and listens on
    the configured port of all interfaces, 8080 when none is configured; it
    never dereferences a nil configuration; when listening fails it exits
    with "Server failed to start: ..." and the deferred [client.Close()]
    does not run. *)
Theorem main_serves (getenv : Env) (listen : string -> option error) :
  (forall name, In name requiredVariables -> getenv name <> "") ->
  let port := if (getenv "SERVER_PORT" =? "")%string then "8080"
              else getenv "SERVER_PORT" in
  exists config,
    loadConfig getenv = (Some config, None)
    /\ main getenv listen
       = [NewClient (getenv "INFLUXDB_URL") (getenv "INFLUXDB_TOKEN");
          HandleFunc "/solarshowdown" config;
          Printf ("Starting server on port " ++ port);
          ListenAndServe (":" ++ port);
          match listen (":" ++ port) with
          | Some err => Fatalf ("Server failed to start: " ++ err)
          | None => Close
          end]
    /\ (In Close (main getenv listen) <-> listen (":" ++ port) = None).
Proof.
  intros Hset. cbv zeta. unfold main. rewrite loadConfig_unfold.
  rewrite (eqb_empty_false _ (Hset "INFLUXDB_URL" ltac:(cbn; tauto))).
  rewrite (eqb_empty_false _ (Hset "INFLUXDB_TOKEN" ltac:(cbn; tauto))).
  rewrite (eqb_empty_false _ (Hset "INFLUXDB_ORG" ltac:(cbn; tauto))).
  rewrite (eqb_empty_false _ (Hset "INFLUXDB_BUCKET" ltac:(cbn; tauto))).
  rewrite (eqb_empty_false _ (Hset "DONGLE" ltac:(cbn; tauto))).
  cbn [orb]. eexists. split; [reflexivity |].
  cbn [InfluxDBURL InfluxDBToken ServerPort].
  destruct (listen _) as [err |].
  - split; [reflexivity |]. split; [| discriminate].
    cbn [In]. intros [H | [H | [H | [H | [H | []]]]]]; discriminate H.
  - split; [reflexivity |]. split; [reflexivity |].
    cbn [In]. auto 10.
Qed.

Lemma main_serves_witness :
  exists config,
    loadConfig homeEnv = (Some config, None)
    /\ main homeEnv portTaken
       = [NewClient "http://influx:8086" "token";
          HandleFunc "/solarshowdown" config;
          Printf "Starting server on port 8080";
          ListenAndServe ":8080";
          Fatalf "Server failed to start: listen tcp :8080: bind: address already in use"]
    /\ (In Close (main homeEnv portTaken) <-> portTaken ":8080" = None).
Proof. exact (main_serves homeEnv portTaken homeEnv_set). Defined.

(* ================================================================== *)
(** * Answers of the store *)
(* ================================================================== *)

Lemma prefix_app (sub rest : string) : String.prefix sub (sub ++ rest) = true.
Proof.
  induction sub as [| c sub IH]; cbn.
  - now destruct rest.
  - destruct (ascii_dec c c) as [_ | Hne]; [exact IH | contradiction].
Qed.

Lemma isInfix_prefix (sub t : string) : String.prefix sub t = true -> isInfix sub t = true.
Proof. intros H. destruct t; cbn [isInfix]; now rewrite H. Qed.

(** A text occurs in every text built around it. *)
Lemma isInfix_app (before sub rest : string) :
  isInfix sub (before ++ sub ++ rest) = true.
Proof.
  induction before as [| c before IH]; cbn [append].
  - apply isInfix_prefix, prefix_app.
  - cbn [isInfix]. rewrite IH. apply orb_true_r.
Qed.

Lemma append_empty_r (t : string) : t ++ "" = t.
Proof. induction t as [| c t IH]; cbn; [reflexivity | now rewrite IH]. Qed.

Lemma isInfix_end (before sub : string) : isInfix sub (before ++ sub) = true.
Proof.
  rewrite <- (append_empty_r sub) at 2. apply isInfix_app.
Qed.

Lemma append_assoc3 (a b c : string) : a ++ b ++ c = (a ++ b) ++ c.
Proof. induction a as [| x a IH]; cbn; [reflexivity | now rewrite IH]. Qed.

(** X4.  When the call to the store itself fails, [queryMeasurement] returns
    0 and an error whose text names the measurement and the cause. *)
Theorem queryMeasurement_query_failed (world : World) (config : Config)
    (measurement : string) (start : Time) (s : State) (cause : error) :
  influx world (tick s) (fluxQuery config measurement start) = inl cause ->
  exists msg,
    fst (queryMeasurement world config measurement start s) = (0%float, Some msg)
    /\ msg = "query failed for " ++ measurement ++ ": " ++ cause
    /\ isInfix measurement msg = true
    /\ isInfix cause msg = true.
Proof.
  intros Hq. eexists. split; [| split; [reflexivity |]].
  - rewrite queryMeasurement_run. cbn [fst]. now rewrite Hq.
  - split.
    + apply isInfix_app.
    + rewrite !append_assoc3. apply isInfix_end.
Qed.

Lemma queryMeasurement_query_failed_witness :
  exists msg,
    fst (queryMeasurement downWorld config0 "lux_Pall" zeroTime state0)
    = (0%float, Some msg)
    /\ msg = "query failed for lux_Pall: connection refused"
    /\ isInfix "lux_Pall" msg = true
    /\ isInfix "connection refused" msg = true.
Proof.
  exact (queryMeasurement_query_failed downWorld config0 "lux_Pall" zeroTime
           state0 "connection refused" eq_refl).
Defined.

(** X5.  Only the first row of an answer counts: what [queryMeasurement]
    returns does not change when the rows after it do. *)
Theorem queryMeasurement_first_row_only (w1 w2 : World) (config : Config)
    (measurement : string) (start : Time) (s1 s2 : State)
    (value : Value) (rest1 rest2 : list Value) (err : option error) :
  influx w1 (tick s1) (fluxQuery config measurement start)
  = inr {| rows := value :: rest1; resErr := err |} ->
  influx w2 (tick s2) (fluxQuery config measurement start)
  = inr {| rows := value :: rest2; resErr := err |} ->
  fst (queryMeasurement w1 config measurement start s1)
  = fst (queryMeasurement w2 config measurement start s2).
Proof.
  intros H1 H2. rewrite !queryMeasurement_run. cbn [fst]. now rewrite H1, H2.
Qed.

Lemma queryMeasurement_first_row_only_witness :
  fst (queryMeasurement twoRowsWorld config0 "lux_Pall" zeroTime state0)
  = fst (queryMeasurement threeWorld config0 "lux_Pall" zeroTime state0).
Proof.
  exact (queryMeasurement_first_row_only twoRowsWorld threeWorld config0
           "lux_Pall" zeroTime state0 state0 (VFloat64 3) [VString "n/a"] []
           None eq_refl eq_refl).
Defined.

(* ================================================================== *)
(** * The queries of a request, in order *)
(* ================================================================== *)


Lemma startAt_eq (world : World) (timeframe : string) (s : State) :
  fst (fst (calculateRangeStart world timeframe s))
  = startAt world timeframe (tick s).
Proof.
  unfold startAt. f_equal.
  symmetry. apply calculateRangeStart_deterministic; reflexivity.
Qed.

Section Tracing.

Variable world : World.
Variable config : Config.
Variable timeframe : string.

Let ok : Prop := supported timeframe.
Let bad : error := "invalid timeframe: " ++ timeframe.

Lemma Traced_ret {A : Type} (a : A) (s : State) :
  ok -> Traced ok bad [] 0 (ret (a, None) s) s.
Proof.
  intros Hok. exists []. cbn. rewrite app_nil_r.
  split; [reflexivity |]. repeat split. assumption.
Qed.

Lemma Traced_bind {A B : Type} (p1 p2 : list FluxQuery) (n1 n2 : nat)
    (c : M (A * option error)) (rest : A -> M (B * option error))
    (zero : B) (s : State) :
  Traced ok bad p1 n1 (c s) s ->
  (forall a s1, c s = ((a, None), s1) -> tick s1 = (n1 + tick s)%nat ->
                Traced ok bad p2 n2 (rest a s1) s1) ->
  Traced ok bad (p1 ++ p2) (n2 + n1)
    (('(a, err) <- c ;;
      match err with
      | Some e => ret (zero, Some e)
      | None => rest a
      end) s) s.
Proof.
  intros (evs1 & Hi1 & H1) Hrest. unfold bind.
  destruct (c s) as [[a [e |]] s1] eqn:Hc; cbn [fst snd] in *.
  - exists evs1. split; [assumption |]. cbn [ret fst snd].
    destruct H1 as [H1 | (Hok & evs0 & ev & rest1 & He & Hp & Hf & Herr)];
      [left; exact H1 | right].
    split; [assumption |]. exists evs0, ev, (rest1 ++ p2)%list.
    rewrite Hp, <- app_assoc. auto.
  - destruct H1 as (Hok & Hp1 & Ht1 & Hf1).
    destruct (Hrest a s1 eq_refl Ht1) as (evs2 & Hi2 & H2).
    exists (evs1 ++ evs2)%list. rewrite Hi2, Hi1, app_assoc.
    split; [reflexivity |].
    destruct (snd (fst (rest a s1))) as [e |].
    + destruct H2 as [(Hnok & _) | (_ & evs0 & ev & rest2 & He & Hp & Hf & Herr)];
        [contradiction | right].
      split; [assumption |]. exists (evs1 ++ evs0)%list, ev, rest2.
      rewrite He, Hp, <- Hp1, He, existsb_app, Hf1, Hf, !map_app, !app_assoc.
      auto.
    + destruct H2 as (_ & Hp2 & Ht2 & Hf2).
      repeat split; try assumption.
      * now rewrite map_app, Hp1, Hp2.
      * rewrite Ht2, Ht1. lia.
      * now rewrite existsb_app, Hf1, Hf2.
Qed.

Lemma Traced_calculateRangeStart (s : State) :
  Traced ok bad [] 1 (calculateRangeStart world timeframe s) s.
Proof.
  exists []. rewrite calculateRangeStart_state. cbn [issued tick].
  rewrite app_nil_r. split; [reflexivity |].
  unfold calculateRangeStart, bind, timeNow, ret, ok, bad, supported,
    Completed, StoppedAt.
  destruct (String.eqb_spec timeframe "day"); [cbn; auto |].
  destruct (String.eqb_spec timeframe "week"); [cbn; auto |].
  destruct (String.eqb_spec timeframe "month"); [cbn; auto 6 |].
  cbn. left. repeat split. tauto.
Qed.

Lemma calculateRangeStart_value (s s1 : State) (start : Time) (err : option error) :
  calculateRangeStart world timeframe s = ((start, err), s1) ->
  start = startAt world timeframe (tick s).
Proof.
  intros H. rewrite <- startAt_eq. now rewrite H.
Qed.

Lemma Traced_queryMeasurement (measurement : string) (start : Time) (s : State) :
  ok ->
  Traced ok bad (ask config start [measurement]) 1
    (queryMeasurement world config measurement start s) s.
Proof.
  intros Hok. rewrite queryMeasurement_run. cbv zeta.
  eexists [_]. cbn [fst snd issued tick]. split; [reflexivity |].
  destruct (influx world (tick s) (fluxQuery config measurement start))
    as [cause | result]; cbn [snd].
  - right. split; [assumption |]. eexists [], _, []. cbn. auto.
  - destruct (processQueryResult result) as [v [e |]] eqn:Hp; cbn [snd].
    + right. split; [assumption |]. eexists [], _, [].
      split; [reflexivity |]. split; [reflexivity |]. split; [reflexivity |].
      unfold errorOf. cbn [fst snd]. now rewrite Hp.
    + repeat split; try assumption.
      cbn [existsb]. unfold failed. cbn [fst snd]. now rewrite Hp.
Qed.

Lemma Traced_sumMeasurements (start : Time) (measurements : list string) :
  ok -> forall total s,
  Traced ok bad (ask config start measurements) (List.length measurements)
    (sumMeasurements world config start measurements total s) s.
Proof.
  intros Hok. induction measurements as [| m ms IH]; intros total s.
  - now apply Traced_ret.
  - cbn [sumMeasurements List.length].
    replace (S (List.length ms)) with (List.length ms + 1)%nat by lia.
    apply (Traced_bind (ask config start [m]) (ask config start ms) 1
             (List.length ms)
             (queryMeasurement world config m start)
             (fun value => sumMeasurements world config start ms (total + value)%float)).
    + now apply Traced_queryMeasurement.
    + intros; apply IH.
Qed.

Ltac traced_step p1 p2 n1 n2 :=
  match goal with
  | |- Traced _ _ _ _ (bind ?c (fun x => match x with (a, err) => match err with
                                         | Some e => _ | None => @?rest a end end) ?s) ?s =>
      apply (Traced_bind p1 p2 n1 n2 c rest)
  end.

Lemma Traced_queryGenerated (s : State) :
  Traced ok bad (planGenerated world config timeframe (tick s)) 4
    (queryGenerated world config timeframe s) s.
Proof.
  unfold queryGenerated, planGenerated.
  traced_step (@nil FluxQuery)
    (ask config (startAt world timeframe (tick s))
       ["lux_Epv1_day"; "lux_Epv2_day"; "lux_Epv3_day"]) 1%nat 3%nat;
    [apply Traced_calculateRangeStart |].
  intros start s1 Hc _.
  rewrite <- (calculateRangeStart_value _ _ _ _ Hc).
  destruct (Traced_calculateRangeStart s) as (evs & _ & H).
  rewrite Hc in H. destruct H as (Hok & _).
  now apply (Traced_sumMeasurements start [_; _; _]).
Qed.

Lemma Traced_single (measurement : string) (s : State) :
  Traced ok bad (planSingle world config timeframe measurement (tick s)) 2
    (('(start, err) <- calculateRangeStart world timeframe ;;
      match err with
      | Some e => ret (0%float, Some e)
      | None => queryMeasurement world config measurement start
      end) s) s.
Proof.
  unfold planSingle.
  traced_step (@nil FluxQuery)
    (ask config (startAt world timeframe (tick s)) [measurement]) 1%nat 1%nat;
    [apply Traced_calculateRangeStart |].
  intros start s1 Hc _.
  rewrite <- (calculateRangeStart_value _ _ _ _ Hc).
  destruct (Traced_calculateRangeStart s) as (evs & _ & H).
  rewrite Hc in H. destruct H as (Hok & _).
  now apply Traced_queryMeasurement.
Qed.

Lemma Traced_queryMaxPv (s : State) :
  Traced ok bad (planSingle world config timeframe "lux_Pall" (tick s)) 2
    (queryMaxPv world config timeframe s) s.
Proof.
  unfold queryMaxPv, planSingle.
  traced_step (@nil FluxQuery)
    (ask config (startAt world timeframe (tick s)) ["lux_Pall"]) 1%nat 1%nat;
    [apply Traced_calculateRangeStart |].
  intros start s1 Hc _.
  rewrite <- (calculateRangeStart_value _ _ _ _ Hc).
  destruct (Traced_calculateRangeStart s) as (evs & _ & H).
  rewrite Hc in H. destruct H as (Hok & _).
  rewrite <- (app_nil_r (ask config start ["lux_Pall"])).
  traced_step (ask config start ["lux_Pall"]) (@nil FluxQuery) 1%nat 0%nat;
    [now apply Traced_queryMeasurement |].
  intros; now apply Traced_ret.
Qed.

Lemma Traced_queryConsumed (s : State) :
  Traced ok bad (planConsumed world config timeframe (tick s)) 9
    (queryConsumed world config timeframe s) s.
Proof.
  unfold queryConsumed, planConsumed.
  traced_step (@nil FluxQuery)
    (planGenerated world config timeframe (S (tick s))
     ++ ask config (startAt world timeframe (tick s))
          ["lux_Etouser_day"; "lux_Edischg_day"; "lux_Etogrid_day";
           "lux_Echg_day"])%list 1%nat 8%nat;
    [apply Traced_calculateRangeStart |].
  intros start s1 Hc Ht1.
  rewrite <- (calculateRangeStart_value _ _ _ _ Hc).
  destruct (Traced_calculateRangeStart s) as (evs & _ & H).
  rewrite Hc in H. destruct H as (Hok & _).
  replace (S (tick s)) with (tick s1) by (rewrite Ht1; reflexivity).
  traced_step (planGenerated world config timeframe (tick s1))
    (ask config start
       ["lux_Etouser_day"; "lux_Edischg_day"; "lux_Etogrid_day"; "lux_Echg_day"])
    4%nat 4%nat; [apply Traced_queryGenerated |].
  intros generated s2 _ _.
  traced_step (ask config start ["lux_Etouser_day"])
    (ask config start ["lux_Edischg_day"; "lux_Etogrid_day"; "lux_Echg_day"])
    1%nat 3%nat; [now apply Traced_queryMeasurement |].
  intros touser s3 _ _.
  traced_step (ask config start ["lux_Edischg_day"])
    (ask config start ["lux_Etogrid_day"; "lux_Echg_day"])
    1%nat 2%nat; [now apply Traced_queryMeasurement |].
  intros dischg s4 _ _.
  traced_step (ask config start ["lux_Etogrid_day"])
    (ask config start ["lux_Echg_day"])
    1%nat 1%nat; [now apply Traced_queryMeasurement |].
  intros togrid s5 _ _.
  rewrite <- (app_nil_r (ask config start ["lux_Echg_day"])).
  traced_step (ask config start ["lux_Echg_day"]) (@nil FluxQuery)
    1%nat 0%nat; [now apply Traced_queryMeasurement |].
  intros chg s6 _ _. now apply Traced_ret.
Qed.

End Tracing.

Section TracingHandler.

Variable world : World.
Variable config : Config.
Variable timeframe : string.

Let ok : Prop := supported timeframe.
Let bad : error := "invalid timeframe: " ++ timeframe.

Lemma Replied_bind {A : Type} (p1 p2 : list FluxQuery) (n1 n2 : nat)
    (c : M (A * option error)) (rest : A -> M HTTPResponse) (s : State) :
  Traced ok bad p1 n1 (c s) s ->
  (forall a s1, c s = ((a, None), s1) -> tick s1 = (n1 + tick s)%nat ->
                Replied ok bad p2 n2 (rest a s1) s1) ->
  Replied ok bad (p1 ++ p2) (n2 + n1)
    (('(a, err) <- c ;;
      match err with
      | Some e => writeError e
      | None => rest a
      end) s) s.
Proof.
  intros (evs1 & Hi1 & H1) Hrest. unfold bind.
  destruct (c s) as [[a [e |]] s1] eqn:Hc; cbn [fst snd] in *.
  - exists evs1. split; [assumption |]. right. exists e.
    split; [reflexivity |]. cbn [writeError ret snd].
    destruct H1 as [H1 | (Hok & evs0 & ev & rest1 & He & Hp & Hf & Herr)];
      [left; exact H1 | right].
    split; [assumption |]. exists evs0, ev, (rest1 ++ p2)%list.
    rewrite Hp, <- app_assoc. auto.
  - destruct H1 as (Hok & Hp1 & Ht1 & Hf1).
    destruct (Hrest a s1 eq_refl Ht1) as (evs2 & Hi2 & H2).
    exists (evs1 ++ evs2)%list. rewrite Hi2, Hi1, app_assoc.
    split; [reflexivity |].
    destruct H2 as [(r & Hr & Herr & _ & Hp2 & Ht2 & Hf2) | (e & Hr & H2)].
    + left. exists r. repeat split; try assumption.
      * now rewrite map_app, Hp1, Hp2.
      * rewrite Ht2, Ht1. lia.
      * now rewrite existsb_app, Hf1, Hf2.
    + right. exists e. split; [assumption |].
      destruct H2 as [(Hnok & _) | (_ & evs0 & ev & rest2 & He & Hp & Hf & Herr)];
        [contradiction | right].
      split; [assumption |]. exists (evs1 ++ evs0)%list, ev, rest2.
      rewrite He, Hp, <- Hp1, He, existsb_app, Hf1, Hf, !map_app, !app_assoc.
      auto.
Qed.

Ltac replied_step p1 p2 n1 n2 :=
  match goal with
  | |- Replied _ _ _ _ (bind ?c (fun x => match x with (a, err) => match err with
                                          | Some e => _ | None => @?rest a end end) ?s) ?s =>
      apply (Replied_bind p1 p2 n1 n2 c rest)
  end.

Lemma Replied_GET (s : State) :
  Replied ok bad (planHandler world config timeframe (tick s)) 21
    (('(generated, err) <- queryGenerated world config timeframe ;;
      match err with
      | Some e => writeError e
      | None =>
      '(consumed, err) <- queryConsumed world config timeframe ;;
      match err with
      | Some e => writeError e
      | None =>
      '(exported, err) <- queryExported world config timeframe ;;
      match err with
      | Some e => writeError e
      | None =>
      '(imported, err) <- queryImported world config timeframe ;;
      match err with
      | Some e => writeError e
      | None =>
      '(discharged, err) <- queryDischarged world config timeframe ;;
      match err with
      | Some e => writeError e
      | None =>
      '(maxPv, err) <- queryMaxPv world config timeframe ;;
      match err with
      | Some e => writeError e
      | None =>
          ret {| status := StatusOK;
                 contentType := Some "application/json";
                 body := JSON {| Generated := generated;
                                 Consumed := consumed;
                                 Exported := exported;
                                 Imported := imported;
                                 Discharged := discharged;
                                 MaxPv := maxPv;
                                 Error := "" |} |}
      end end end end end end) s) s.
Proof.
  unfold planHandler.
  replied_step (planGenerated world config timeframe (tick s))
    (planConsumed world config timeframe (4 + tick s)
     ++ planSingle world config timeframe "lux_Etogrid_day" (13 + tick s)
     ++ planSingle world config timeframe "lux_Etouser_day" (15 + tick s)
     ++ planSingle world config timeframe "lux_Edischg_day" (17 + tick s)
     ++ planSingle world config timeframe "lux_Pall" (19 + tick s))%list
    4%nat 17%nat; [apply Traced_queryGenerated |].
  intros generated s1 _ Ht1.
  replace (4 + tick s)%nat with (tick s1) by lia.
  replace (13 + tick s)%nat with (9 + tick s1)%nat by lia.
  replace (15 + tick s)%nat with (11 + tick s1)%nat by lia.
  replace (17 + tick s)%nat with (13 + tick s1)%nat by lia.
  replace (19 + tick s)%nat with (15 + tick s1)%nat by lia.
  replied_step (planConsumed world config timeframe (tick s1))
    (planSingle world config timeframe "lux_Etogrid_day" (9 + tick s1)
     ++ planSingle world config timeframe "lux_Etouser_day" (11 + tick s1)
     ++ planSingle world config timeframe "lux_Edischg_day" (13 + tick s1)
     ++ planSingle world config timeframe "lux_Pall" (15 + tick s1))%list
    9%nat 8%nat; [apply Traced_queryConsumed |].
  intros consumed s2 _ Ht2.
  replace (9 + tick s1)%nat with (tick s2) by lia.
  replace (11 + tick s1)%nat with (2 + tick s2)%nat by lia.
  replace (13 + tick s1)%nat with (4 + tick s2)%nat by lia.
  replace (15 + tick s1)%nat with (6 + tick s2)%nat by lia.
  replied_step (planSingle world config timeframe "lux_Etogrid_day" (tick s2))
    (planSingle world config timeframe "lux_Etouser_day" (2 + tick s2)
     ++ planSingle world config timeframe "lux_Edischg_day" (4 + tick s2)
     ++ planSingle world config timeframe "lux_Pall" (6 + tick s2))%list
    2%nat 6%nat; [apply Traced_single |].
  intros exported s3 _ Ht3.
  replace (2 + tick s2)%nat with (tick s3) by lia.
  replace (4 + tick s2)%nat with (2 + tick s3)%nat by lia.
  replace (6 + tick s2)%nat with (4 + tick s3)%nat by lia.
  replied_step (planSingle world config timeframe "lux_Etouser_day" (tick s3))
    (planSingle world config timeframe "lux_Edischg_day" (2 + tick s3)
     ++ planSingle world config timeframe "lux_Pall" (4 + tick s3))%list
    2%nat 4%nat; [apply Traced_single |].
  intros imported s4 _ Ht4.
  replace (2 + tick s3)%nat with (tick s4) by lia.
  replace (4 + tick s3)%nat with (2 + tick s4)%nat by lia.
  replied_step (planSingle world config timeframe "lux_Edischg_day" (tick s4))
    (planSingle world config timeframe "lux_Pall" (2 + tick s4))
    2%nat 2%nat; [apply Traced_single |].
  intros discharged s5 _ Ht5.
  replace (2 + tick s4)%nat with (tick s5) by lia.
  rewrite <- (app_nil_r (planSingle world config timeframe "lux_Pall" (tick s5))).
  replied_step (planSingle world config timeframe "lux_Pall" (tick s5))
    (@nil FluxQuery) 2%nat 0%nat; [apply Traced_queryMaxPv |].
  intros maxPv s6 Hc6 _.
  destruct (Traced_queryMaxPv world config timeframe s5) as (evs & _ & H).
  rewrite Hc6 in H. destruct H as (Hok & _).
  exists []. cbn [ret fst snd]. rewrite app_nil_r. split; [reflexivity |].
  left. eexists. split; [reflexivity |]. split; [reflexivity |].
  repeat split. assumption.
Qed.

End TracingHandler.

Lemma Replied_handleSolarShowdown (world : World) (config : Config)
    (r : Request) (s : State) :
  Method r = "GET" ->
  Replied (supported (requestedTimeframe r))
    ("invalid timeframe: " ++ requestedTimeframe r)
    (planHandler world config (requestedTimeframe r) (tick s)) 21
    (handleSolarShowdown world config r s) s.
Proof.
  intros Hm. unfold handleSolarShowdown. rewrite Hm.
  cbn [String.eqb Ascii.eqb Bool.eqb negb].
  apply Replied_GET.
Qed.

Lemma Forall_scoped_ask (config : Config) (start : Time) (ms : list string) :
  incl ms measurementNames -> Forall (scoped config) (ask config start ms).
Proof.
  intros Hin. unfold ask. rewrite Forall_map, Forall_forall. intros m Hm.
  repeat split. now apply Hin.
Qed.

Lemma Forall_scoped_planHandler (world : World) (config : Config)
    (timeframe : string) (n : nat) :
  Forall (scoped config) (planHandler world config timeframe n).
Proof.
  unfold planHandler, planConsumed, planGenerated, planSingle.
  repeat (apply Forall_app; split);
    apply Forall_scoped_ask; intros m Hm; cbn in Hm |- *; tauto.
Qed.


(** X8.  A request other than GET is answered with 405 and touches neither
    the clock nor the store; a GET request is never answered with 405. *)
Theorem handleSolarShowdown_method_not_allowed
    (world : World) (config : Config) (r : Request) (s : State) :
  let run := handleSolarShowdown world config r s in
  (status (fst run) = StatusMethodNotAllowed <-> Method r <> "GET")
  /\ (Method r <> "GET" -> run = (methodNotAllowedReply, s)).
Proof.
  cbv zeta. destruct (string_dec (Method r) "GET") as [Hm | Hm].
  - split; [| contradiction].
    destruct (Replied_handleSolarShowdown world config r s Hm)
      as (evs & _ & [(rec & -> & _) | (e & -> & _)]);
      cbn; split; intros H; (discriminate || contradiction).
  - rewrite (handleSolarShowdown_other world config r s Hm).
    split; [split; auto | reflexivity].
Qed.




(** X13.  Every query a request sends is for the configured organisation,
    bucket and dongle, on one of the eight measurements. *)
Theorem handleSolarShowdown_queries_scoped
    (world : World) (config : Config) (r : Request) (s : State) :
  exists evs,
    issued (snd (handleSolarShowdown world config r s)) = (issued s ++ evs)%list
    /\ Forall (scoped config) (map fst evs).
Proof.
  destruct (string_dec (Method r) "GET") as [Hm | Hm].
  - pose proof (Forall_scoped_planHandler world config (requestedTimeframe r) (tick s))
      as Hall.
    destruct (Replied_handleSolarShowdown world config r s Hm)
      as (evs & Hi & [(rec & _ & _ & _ & Hp & _)
                     | (e & _ & [(_ & -> & _) | (_ & evs0 & ev & rest & _ & Hp & _)])]).
    + exists evs. split; [assumption |]. now rewrite Hp.
    + exists []. split; [assumption | constructor].
    + exists evs. split; [assumption |]. rewrite Hp in Hall.
      now apply Forall_app in Hall.
  - rewrite (handleSolarShowdown_other world config r s Hm).
    exists []. cbn. rewrite app_nil_r. split; [reflexivity | constructor].
Qed.

(** X7.  [queryConsumed] reads the clock twice: its three PV queries go over
    the window of the second reading (made by [queryGenerated]), its four
    other queries over the window of the first. *)
Theorem queryConsumed_two_windows
    (world : World) (config : Config) (timeframe : string) (s : State) :
  let run := queryConsumed world config timeframe s in
  let first := FormatRFC3339 (startAt world timeframe (tick s)) in
  let second := FormatRFC3339 (startAt world timeframe (S (tick s))) in
  snd (fst run) = None ->
  tick (snd run) = (9 + tick s)%nat
  /\ exists evs,
       issued (snd run) = (issued s ++ evs)%list
       /\ rangeStartsOf evs
          = [second; second; second; first; first; first; first].
Proof.
  cbv zeta. intros Hnone.
  destruct (Traced_queryConsumed world config timeframe s) as (evs & Hi & H).
  rewrite Hnone in H. destruct H as (_ & Hp & Ht & _).
  split; [assumption |]. exists evs. split; [assumption |].
  unfold rangeStartsOf. rewrite <- (map_map fst qRangeStart), Hp. reflexivity.
Qed.

Lemma queryConsumed_two_windows_witness :
  snd (fst (queryConsumed tickingWorld config0 "week" state0)) = None
  /\ tick (snd (queryConsumed tickingWorld config0 "week" state0)) = 9%nat
  /\ exists evs,
       issued (snd (queryConsumed tickingWorld config0 "week" state0))
       = ([] ++ evs)%list
       /\ rangeStartsOf evs
          = [1709899201; 1709899201; 1709899201;
             1709899200; 1709899200; 1709899200; 1709899200].
Proof.
  split; [reflexivity |].
  exact (queryConsumed_two_windows tickingWorld config0 "week" state0 eq_refl).
Defined.

Lemma calculateRangeStart_unsupported (world : World) (timeframe : string) (s : State) :
  ~ supported timeframe ->
  calculateRangeStart world timeframe s
  = ((zeroTime, Some ("invalid timeframe: " ++ timeframe)),
     {| tick := S (tick s); issued := issued s |}).
Proof.
  intros Hns. unfold calculateRangeStart, bind, timeNow, ret, supported in *.
  destruct (String.eqb_spec timeframe "day"); [tauto |].
  destruct (String.eqb_spec timeframe "week"); [tauto |].
  destruct (String.eqb_spec timeframe "month"); [tauto |].
  reflexivity.
Qed.

(** X9.  What a GET request with a timeframe parameter other than day, week
    and month gets: without the parameter (or with an empty one) it is
    served as a request for "day"; with any other value the reply is 500
    with the invalid-timeframe error that names the value, after one reading
    of the clock and without any query to the store. *)
Theorem handleSolarShowdown_timeframe_parameter
    (world : World) (config : Config) (r : Request) (s : State) :
  Method r = "GET" ->
  ~ supported (timeframeParam r) ->
  let run := handleSolarShowdown world config r s in
  (timeframeParam r = "" ->
   run = handleSolarShowdown world config
           {| Method := "GET"; timeframeParam := "day" |} s)
  /\ (timeframeParam r <> "" ->
      run = (errorReply ("invalid timeframe: " ++ timeframeParam r),
             {| tick := S (tick s); issued := issued s |})).
Proof.
  intros Hm Hns. cbv zeta. split.
  - intros He. unfold handleSolarShowdown. cbn [Method timeframeParam].
    rewrite Hm, He. reflexivity.
  - intros Hne. unfold handleSolarShowdown. rewrite Hm.
    cbn [String.eqb Ascii.eqb Bool.eqb negb].
    destruct (String.eqb_spec (timeframeParam r) "") as [E | _]; [contradiction |].
    cbv zeta. unfold bind at 1. unfold queryGenerated, bind at 1.
    rewrite (calculateRangeStart_unsupported world (timeframeParam r) s Hns).
    reflexivity.
Qed.

Lemma not_supported_Day : ~ supported "Day".
Proof. intros [H | [H | H]]; discriminate H. Qed.

Lemma handleSolarShowdown_timeframe_parameter_witness :
  ("Day" = "" ->
   handleSolarShowdown fixtureWorld config0
     {| Method := "GET"; timeframeParam := "Day" |} state0
   = handleSolarShowdown fixtureWorld config0
       {| Method := "GET"; timeframeParam := "day" |} state0)
  /\ ("Day" <> "" ->
      handleSolarShowdown fixtureWorld config0
        {| Method := "GET"; timeframeParam := "Day" |} state0
      = (errorReply "invalid timeframe: Day", {| tick := 1; issued := [] |})).
Proof.
  exact (handleSolarShowdown_timeframe_parameter fixtureWorld config0
           {| Method := "GET"; timeframeParam := "Day" |} state0
           eq_refl not_supported_Day).
Defined.

(* ================================================================== *)
(** * Replies *)
(* ================================================================== *)

Section ValueStore.

Variable world : World.
Variable config : Config.
Variable fixture : string -> float.
Hypothesis Hstore : valueStore world fixture.

Lemma Returns_bind {A B : Type} (a : A) (b : B)
    (c : M (A * option error)) (rest : A -> M (B * option error))
    (zero : B) (s : State) :
  Returns a (c s) ->
  (forall s1, Returns b (rest a s1)) ->
  Returns b
    (('(a, err) <- c ;;
      match err with
      | Some e => ret (zero, Some e)
      | None => rest a
      end) s).
Proof.
  unfold Returns, bind. intros Hc Hrest.
  destruct (c s) as [[a' err] s1]. cbn [fst] in Hc. injection Hc as -> ->.
  apply Hrest.
Qed.

Lemma Returns_queryMeasurement (measurement : string) (start : Time) (s : State) :
  Returns (fixture measurement) (queryMeasurement world config measurement start s).
Proof.
  unfold Returns. rewrite queryMeasurement_run. cbv zeta. cbn [fst].
  destruct (Hstore (tick s) (fluxQuery config measurement start))
    as (result & -> & ->).
  reflexivity.
Qed.

Lemma Returns_calculateRangeStart (timeframe : string) (s : State) :
  supported timeframe ->
  exists start, Returns start (calculateRangeStart world timeframe s).
Proof.
  intros Hs. destruct (calculateRangeStart_supported world timeframe s Hs) as [start H].
  exists start. unfold Returns. now rewrite H.
Qed.

Ltac returns_step a :=
  match goal with
  | |- Returns ?b (bind ?c (fun x => match x with (a', err) => match err with
                                     | Some e => _ | None => @?rest a' end end) ?s) =>
      apply (Returns_bind a b c rest)
  end.

Lemma Returns_single (timeframe measurement : string) (s : State) :
  supported timeframe ->
  Returns (fixture measurement)
    (('(start, err) <- calculateRangeStart world timeframe ;;
      match err with
      | Some e => ret (0%float, Some e)
      | None => queryMeasurement world config measurement start
      end) s).
Proof.
  intros Hs. destruct (Returns_calculateRangeStart timeframe s Hs) as [start H].
  returns_step start; [exact H |].
  intros; apply Returns_queryMeasurement.
Qed.

Lemma Returns_queryGenerated (timeframe : string) (s : State) :
  supported timeframe ->
  Returns (Generated (fixtureResponse fixture))
    (queryGenerated world config timeframe s).
Proof.
  intros Hs. destruct (Returns_calculateRangeStart timeframe s Hs) as [start H].
  unfold queryGenerated. returns_step start; [exact H |].
  intros s1. cbn [sumMeasurements].
  returns_step (fixture "lux_Epv1_day"); [apply Returns_queryMeasurement |].
  intros s2.
  returns_step (fixture "lux_Epv2_day"); [apply Returns_queryMeasurement |].
  intros s3.
  returns_step (fixture "lux_Epv3_day"); [apply Returns_queryMeasurement |].
  intros s4. reflexivity.
Qed.

Lemma Returns_queryConsumed (timeframe : string) (s : State) :
  supported timeframe ->
  Returns (Consumed (fixtureResponse fixture))
    (queryConsumed world config timeframe s).
Proof.
  intros Hs. destruct (Returns_calculateRangeStart timeframe s Hs) as [start H].
  unfold queryConsumed. returns_step start; [exact H |].
  intros s1.
  returns_step (Generated (fixtureResponse fixture));
    [now apply Returns_queryGenerated |].
  intros s2.
  returns_step (fixture "lux_Etouser_day"); [apply Returns_queryMeasurement |].
  intros s3.
  returns_step (fixture "lux_Edischg_day"); [apply Returns_queryMeasurement |].
  intros s4.
  returns_step (fixture "lux_Etogrid_day"); [apply Returns_queryMeasurement |].
  intros s5.
  returns_step (fixture "lux_Echg_day"); [apply Returns_queryMeasurement |].
  intros s6. reflexivity.
Qed.

Lemma Returns_queryMaxPv (timeframe : string) (s : State) :
  supported timeframe ->
  Returns (MaxPv (fixtureResponse fixture))
    (queryMaxPv world config timeframe s).
Proof.
  intros Hs. destruct (Returns_calculateRangeStart timeframe s Hs) as [start H].
  unfold queryMaxPv. returns_step start; [exact H |].
  intros s1.
  returns_step (fixture "lux_Pall"); [apply Returns_queryMeasurement |].
  intros s2. reflexivity.
Qed.

Lemma handleSolarShowdown_Returns (r : Request) (s : State) :
  Method r = "GET" ->
  supported (requestedTimeframe r) ->
  fst (handleSolarShowdown world config r s) = okReply (fixtureResponse fixture).
Proof.
  intros Hm Hs. unfold handleSolarShowdown. rewrite Hm.
  cbn [String.eqb Ascii.eqb Bool.eqb negb].
  fold (requestedTimeframe r). cbv zeta. unfold bind.
  pose proof (Returns_queryGenerated (requestedTimeframe r) s Hs) as H1.
  unfold Returns in H1.
  destruct (queryGenerated world config (requestedTimeframe r) s) as [[g e1] s1].
  cbn [fst] in H1. injection H1 as -> ->.
  pose proof (Returns_queryConsumed (requestedTimeframe r) s1 Hs) as H2.
  unfold Returns in H2.
  destruct (queryConsumed world config (requestedTimeframe r) s1) as [[c e2] s2].
  cbn [fst] in H2. injection H2 as -> ->.
  pose proof (Returns_single (requestedTimeframe r) "lux_Etogrid_day" s2 Hs) as H3.
  unfold Returns in H3. fold (queryExported world config (requestedTimeframe r)) in H3.
  destruct (queryExported world config (requestedTimeframe r) s2) as [[x e3] s3].
  cbn [fst] in H3. injection H3 as -> ->.
  pose proof (Returns_single (requestedTimeframe r) "lux_Etouser_day" s3 Hs) as H4.
  unfold Returns in H4. fold (queryImported world config (requestedTimeframe r)) in H4.
  destruct (queryImported world config (requestedTimeframe r) s3) as [[i e4] s4].
  cbn [fst] in H4. injection H4 as -> ->.
  pose proof (Returns_single (requestedTimeframe r) "lux_Edischg_day" s4 Hs) as H5.
  unfold Returns in H5. fold (queryDischarged world config (requestedTimeframe r)) in H5.
  destruct (queryDischarged world config (requestedTimeframe r) s4) as [[d e5] s5].
  cbn [fst] in H5. injection H5 as -> ->.
  pose proof (Returns_queryMaxPv (requestedTimeframe r) s5 Hs) as H6.
  unfold Returns in H6.
  destruct (queryMaxPv world config (requestedTimeframe r) s5) as [[p e6] s6].
  cbn [fst] in H6. injection H6 as -> ->.
  reflexivity.
Qed.

End ValueStore.


Lemma noData_valueStore (world : World) :
  noData world -> valueStore world (fun _ => 0%float).
Proof.
  intros H n q. destruct (H n q) as (result & Hr & Hrows).
  exists result. split; [assumption |].
  unfold processQueryResult, Next, RecordValue.
  destruct Hrows as [-> | [more ->]]; reflexivity.
Qed.




(** X15.  With a supported timeframe (or none) and a store without data, a
    GET request is answered with 200 and six zero quantities, not with an
    error. *)
Theorem handleSolarShowdown_no_data
    (world : World) (config : Config) (r : Request) (s : State) :
  Method r = "GET" ->
  supported (requestedTimeframe r) ->
  noData world ->
  fst (handleSolarShowdown world config r s)
  = {| status := StatusOK;
       contentType := Some "application/json";
       body := JSON {| Generated := 0; Consumed := 0; Exported := 0;
                       Imported := 0; Discharged := 0; MaxPv := 0;
                       Error := "" |} |}.
Proof.
  intros Hm Hs Hno.
  apply (handleSolarShowdown_Returns world config (fun _ => 0%float)
           (noData_valueStore world Hno) r s Hm Hs).
Qed.

Lemma sparseWorld_noData : noData sparseWorld.
Proof.
  intros n q. eexists. split; [reflexivity |]. cbn [rows].
  destruct (n <? 3)%nat; [left; reflexivity | right; now exists [VFloat64 7]].
Qed.

Lemma supported_month : supported "month".
Proof. right; right. reflexivity. Qed.

Lemma handleSolarShowdown_no_data_witness :
  fst (handleSolarShowdown sparseWorld config0
         {| Method := "GET"; timeframeParam := "month" |} state0)
  = {| status := 200;
       contentType := Some "application/json";
       body := JSON {| Generated := 0; Consumed := 0; Exported := 0;
                       Imported := 0; Discharged := 0; MaxPv := 0;
                       Error := "" |} |}.
Proof.
  exact (handleSolarShowdown_no_data sparseWorld config0
           {| Method := "GET"; timeframeParam := "month" |} state0
           eq_refl supported_month sparseWorld_noData).
Defined.




(* ================================================================== *)
(** * The windows, by length and by date *)
(* ================================================================== *)

(** X3.  In a zone of a single offset: the start of "day" lies less than 24
    hours minus a minute before now and at most a minute after it, on the
    local date of now, at 00:01:00 on the local clock; the start of "week"
    lies 7 days of 24 hours before now; the start of "month" lies 28 to 31
    such days before now. *)
Theorem calculateRangeStart_window_lengths (world : World) (s : State) :
  tx (Local world) = [] ->
  let now := clock world (tick s) in
  let off := firstOffset (Local world) in
  let start timeframe :=
    instant (fst (fst (calculateRangeStart world timeframe s))) in
  (now - nanosPerDay + 60 * nanosPerSecond < start "day"
     <= now + 60 * nanosPerSecond
   /\ localDate off (start "day") = localDate off now
   /\ localTimeOfDay off (start "day") = 60 * nanosPerSecond)
  /\ start "week" = now - 7 * nanosPerDay
  /\ now - 31 * nanosPerDay <= start "month" <= now - 28 * nanosPerDay.
Proof.
  intros Hfix. cbv zeta.
  destruct (calculateRangeStart_fixed world s Hfix) as (-> & -> & ->).
  cbn [fst instant].
  split; [| split; [reflexivity | apply specMonthStart_range]].
  set (now := clock world (tick s)). set (off := firstOffset (Local world)).
  clearbody now off.
  assert (Hday : (specDayStart off now / nanosPerSecond + off) / secondsPerDay
                 = (now / nanosPerSecond + off) / secondsPerDay).
  { unfold specDayStart, localMidnight, localTimeOfDay, nanosPerDay,
      secondsPerDay, nanosPerSecond.
    Z.div_mod_to_equations. lia. }
  split; [| split].
  - unfold specDayStart, localMidnight, localTimeOfDay, nanosPerDay,
      secondsPerDay, nanosPerSecond.
    Z.div_mod_to_equations. lia.
  - unfold localDate, absDate. now rewrite Hday.
  - unfold specDayStart, localMidnight, localTimeOfDay, nanosPerDay,
      secondsPerDay, nanosPerSecond.
    Z.div_mod_to_equations. lia.
Qed.

Lemma calculateRangeStart_window_lengths_witness :
  (halfPastMidnight - nanosPerDay + 60 * nanosPerSecond
     < 1710460860 * nanosPerSecond <= halfPastMidnight + 60 * nanosPerSecond
   /\ localDate 0 (1710460860 * nanosPerSecond) = localDate 0 halfPastMidnight
   /\ localTimeOfDay 0 (1710460860 * nanosPerSecond) = 60 * nanosPerSecond)
  /\ 1709856030 * nanosPerSecond = halfPastMidnight - 7 * nanosPerDay
  /\ halfPastMidnight - 31 * nanosPerDay <= 1707955230 * nanosPerSecond
     <= halfPastMidnight - 28 * nanosPerDay.
Proof.
  exact (calculateRangeStart_window_lengths midnightWorld state0 eq_refl).
Defined.

Ltac eval_calendar :=
  repeat match goal with
         | |- context [daysBefore ?k] =>
             let v := eval vm_compute in (daysBefore k) in
             change (daysBefore k) with v
         | |- context [?a =? ?b] =>
             let v := eval vm_compute in (a =? b) in
             change (a =? b) with v
         | |- context [?a <=? ?b] =>
             let v := eval vm_compute in (a <=? b) in
             change (a <=? b) with v
         | _ => progress cbv beta iota
         end;
  cbn [andb].

Lemma daysSinceEpoch_mono (year k : Z) :
  0 <= k -> daysSinceEpoch year + 365 * k <= daysSinceEpoch (year + k).
Proof.
  intros Hk. revert k Hk. apply natlike_ind.
  - replace (year + 0) with year by lia. lia.
  - intros k Hk IH. replace (year + Z.succ k) with (year + k + 1) by lia.
    rewrite daysSinceEpoch_succ. destruct (isLeap (year + k)); lia.
Qed.

(** The day of the year, from 0, of a date. *)
Lemma yearDay_of_date (year month day : Z) :
  1 <= month <= 12 -> 1 <= day <= daysIn year month ->
  0 <= civilDays year month day - daysSinceEpoch year
    < 365 + (if isLeap year then 1 else 0).
Proof.
  intros Hm. rewrite daysIn_table. unfold civilDays.
  assert (Hcases : month = 1 \/ month = 2 \/ month = 3 \/ month = 4
                   \/ month = 5 \/ month = 6 \/ month = 7 \/ month = 8
                   \/ month = 9 \/ month = 10 \/ month = 11 \/ month = 12) by lia.
  repeat (destruct Hcases as [-> | Hcases]); try subst month;
    destruct (isLeap year); eval_calendar; lia.
Qed.

Lemma civilDays_year (y1 m1 d1 y2 m2 d2 : Z) :
  1 <= m1 <= 12 -> 1 <= d1 <= daysIn y1 m1 ->
  1 <= m2 <= 12 -> 1 <= d2 <= daysIn y2 m2 ->
  civilDays y1 m1 d1 = civilDays y2 m2 d2 -> y1 = y2.
Proof.
  intros Hm1 Hd1 Hm2 Hd2 He.
  pose proof (yearDay_of_date y1 m1 d1 Hm1 Hd1) as H1.
  pose proof (yearDay_of_date y2 m2 d2 Hm2 Hd2) as H2.
  destruct (Z.lt_trichotomy y1 y2) as [Hlt | [Heq | Hgt]]; [| assumption |].
  - pose proof (daysSinceEpoch_mono (y1 + 1) (y2 - y1 - 1) ltac:(lia)) as Hmono.
    replace (y1 + 1 + (y2 - y1 - 1)) with y2 in Hmono by lia.
    rewrite daysSinceEpoch_succ in Hmono. lia.
  - pose proof (daysSinceEpoch_mono (y2 + 1) (y1 - y2 - 1) ltac:(lia)) as Hmono.
    replace (y2 + 1 + (y1 - y2 - 1)) with y1 in Hmono by lia.
    rewrite daysSinceEpoch_succ in Hmono. lia.
Qed.

Lemma civilDays_month (year m1 d1 m2 d2 : Z) :
  1 <= m1 <= 12 -> 1 <= d1 <= daysIn year m1 ->
  1 <= m2 <= 12 -> 1 <= d2 <= daysIn year m2 ->
  civilDays year m1 d1 = civilDays year m2 d2 -> m1 = m2 /\ d1 = d2.
Proof.
  intros Hm1 Hd1 Hm2 Hd2. rewrite daysIn_table in Hd1, Hd2. unfold civilDays.
  revert Hd1 Hd2.
  assert (Hc1 : m1 = 1 \/ m1 = 2 \/ m1 = 3 \/ m1 = 4 \/ m1 = 5 \/ m1 = 6
                \/ m1 = 7 \/ m1 = 8 \/ m1 = 9 \/ m1 = 10 \/ m1 = 11 \/ m1 = 12)
    by lia.
  assert (Hc2 : m2 = 1 \/ m2 = 2 \/ m2 = 3 \/ m2 = 4 \/ m2 = 5 \/ m2 = 6
                \/ m2 = 7 \/ m2 = 8 \/ m2 = 9 \/ m2 = 10 \/ m2 = 11 \/ m2 = 12)
    by lia.
  destruct (isLeap year);
    repeat (destruct Hc1 as [-> | Hc1]); try subst m1;
    repeat (destruct Hc2 as [-> | Hc2]); try subst m2;
    eval_calendar; lia.
Qed.

(** [absDate] reads back the date that [civilDays] counted, at any time
    of that day. *)
Lemma absDate_civilDays (year month day r : Z) :
  1 <= month <= 12 -> 1 <= day <= daysIn year month ->
  0 <= r < secondsPerDay ->
  absDate (civilDays year month day * secondsPerDay + r) = (year, month, day).
Proof.
  intros Hm Hd Hr.
  pose proof (absDate_spec (civilDays year month day * secondsPerDay + r)) as H.
  destruct (absDate _) as [[y m] d]. destruct H as (Hc & Hm' & Hd').
  assert (Hq : (civilDays year month day * secondsPerDay + r) / secondsPerDay
               = civilDays year month day).
  { unfold secondsPerDay in *. Z.div_mod_to_equations. lia. }
  rewrite Hq in Hc.
  pose proof (civilDays_year y m d year month day Hm' Hd' Hm Hd Hc) as ->.
  destruct (civilDays_month year m d month day Hm' Hd' Hm Hd Hc) as [-> ->].
  reflexivity.
Qed.

(** X16.  In a zone of a single offset, the start of "month" shows, on the
    local clock, the time of day of now and the day of the month of now in
    the preceding month; when that month has no such day (the 31st, or the
    29th to 31st before a February), it shows the day that lies as many days
    into the month of now as the preceding month is too short. *)
Theorem calculateRangeStart_month_date (world : World) (s : State) :
  tx (Local world) = [] ->
  let now := clock world (tick s) in
  let off := firstOffset (Local world) in
  let start := instant (fst (fst (calculateRangeStart world "month" s))) in
  localDate off start = specMonthDate off now
  /\ localTimeOfDay off start = localTimeOfDay off now.
Proof.
  intros Hfix. cbv zeta.
  destruct (calculateRangeStart_fixed world s Hfix) as (_ & _ & ->).
  cbn [fst instant].
  set (now := clock world (tick s)). set (off := firstOffset (Local world)).
  clearbody now off.
  unfold specMonthDate, specMonthStart, localDate.
  set (a := now / nanosPerSecond + off).
  pose proof (absDate_spec a) as Hd. destruct (absDate a) as [[y m] d].
  destruct Hd as (Hc & Hm & Hd).
  pose proof (civilDays_previousMonth y m d Hm) as Hp.
  pose proof (previousMonth_range y m Hm) as Hr.
  destruct (previousMonth y m) as [py pm]. cbn [snd] in Hr.
  pose proof (daysIn_range py pm Hr) as HL.
  pose proof (daysIn_range y m Hm) as HL'.
  set (L := daysIn py pm) in *.
  assert (Ha : (now - L * nanosPerDay) / nanosPerSecond + off
               = (a / secondsPerDay - L) * secondsPerDay + a mod secondsPerDay).
  { subst a. clearbody L. unfold nanosPerDay, secondsPerDay, nanosPerSecond.
    Z.div_mod_to_equations. lia. }
  split.
  - rewrite Ha, <- Hc.
    assert (Hmod : 0 <= a mod secondsPerDay < secondsPerDay)
      by (apply Z.mod_pos_bound; unfold secondsPerDay; lia).
    destruct (Z.leb_spec d L) as [Hle | Hgt].
    + rewrite <- Hp. apply absDate_civilDays; [assumption | fold L; lia | assumption].
    + replace (civilDays y m d - L) with (civilDays y m (d - L))
        by (unfold civilDays; lia).
      apply absDate_civilDays; [assumption | lia | assumption].
  - unfold localTimeOfDay. clearbody L.
    unfold nanosPerDay, secondsPerDay, nanosPerSecond.
    Z.div_mod_to_equations. lia.
Qed.

Lemma calculateRangeStart_month_date_witness :
  localDate 0 (1709380800 * nanosPerSecond) = (2024, 3, 2)
  /\ localTimeOfDay 0 (1709380800 * nanosPerSecond)
     = localTimeOfDay 0 endOfMarch.
Proof.
  exact (calculateRangeStart_month_date endOfMarchWorld state0 eq_refl).
Defined.
